(** * Dup_Remover: PCR-duplicate removal over a SAM stream

    A shallow embedding of [Dup_Remover.py] (classes [sam_info] and [rmdup])
    and the properties of its record classifier and dedup accumulator.

    Conventions of the embedding.
    - A Python [str] is a [string]; a character is a code point below 256.
    - A line is the text the file iterator hands out, terminator included.
    - A Python exception is an explicit [Raise]; nothing in [inter_sam]
      catches one, so a [Raise] ends the run.
    - The dictionary [place] is an association list in insertion order
      (the order [place.keys()] and [place.values()] iterate in).
    - Calls to [logger] write to the log file only and are left out. *)

From Stdlib Require Import ZArith List String Ascii Bool Lia.
Import ListNotations.

Local Open Scope string_scope.
Local Open Scope Z_scope.

(** ** Exceptions *)

Inductive exn : Type := IndexError | ValueError | TypeError.

Inductive result (A : Type) : Type :=
| Ok (a : A)
| Raise (e : exn).

Arguments Ok {A} a.
Arguments Raise {A} e.

Definition bind {A B : Type} (m : result A) (k : A -> result B) : result B :=
  match m with
  | Ok a => k a
  | Raise e => Raise e
  end.

Notation "x <- m ;; k" := (bind m (fun x => k))
  (at level 61, m at next level, right associativity).

Definition raises {A : Type} (m : result A) : Prop := exists e, m = Raise e.

(** ** The Python primitives the program uses *)

Module Py.

Definition ord (c : ascii) : Z := Z.of_N (N_of_ascii c).

Definition tab : ascii := "009"%char.
Definition nl : ascii := "010"%char.

(** White space that [int] strips: the ASCII set and, below 256, U+0085 and
    U+00A0. *)
Definition isspace (c : ascii) : bool :=
  let n := ord c in
  ((9 <=? n) && (n <=? 13)) || (n =? 32) || (n =? 133) || (n =? 160).

Definition isdigit (c : ascii) : bool :=
  let n := ord c in (48 <=? n) && (n <=? 57).

Definition digit (c : ascii) : Z := ord c - 48.

(** Digits after the first one; a single underscore may sit between two
    digits. *)
Fixpoint int_digits (acc : Z) (cs : list ascii) : option Z :=
  match cs with
  | [] => Some acc
  | c :: cs' =>
      if isdigit c then int_digits (10 * acc + digit c) cs'
      else if Ascii.eqb c "_" then
        match cs' with
        | d :: cs'' =>
            if isdigit d then int_digits (10 * acc + digit d) cs'' else None
        | [] => None
        end
      else None
  end.

Definition int_body (cs : list ascii) : option Z :=
  match cs with
  | c :: cs' => if isdigit c then int_digits (digit c) cs' else None
  | [] => None
  end.

Fixpoint lstrip (cs : list ascii) : list ascii :=
  match cs with
  | c :: cs' => if isspace c then lstrip cs' else cs
  | [] => []
  end.

(** Surrounding white space, an optional sign, then the digits. *)
Definition int_literal (s : string) : option Z :=
  let cs := rev (lstrip (rev (lstrip (list_ascii_of_string s)))) in
  match cs with
  | c :: ds =>
      if Ascii.eqb c "+" then int_body ds
      else if Ascii.eqb c "-" then option_map Z.opp (int_body ds)
      else int_body cs
  | [] => None
  end.

(** [int(s)] for a string [s], base 10. *)
Definition int (s : string) : result Z :=
  match int_literal s with
  | Some z => Ok z
  | None => Raise ValueError
  end.

(** [s.split("\t")] *)
Fixpoint split_tab (s : string) : list string :=
  match s with
  | EmptyString => [EmptyString]
  | String c s' =>
      if Ascii.eqb c tab then EmptyString :: split_tab s'
      else match split_tab s' with
           | f :: fs => String c f :: fs
           | [] => [String c EmptyString]
           end
  end.

(** [l[n]] on a list, [s[n]] on a string, for [n >= 0]. *)
Definition item {A : Type} (l : list A) (n : nat) : result A :=
  match nth_error l n with
  | Some a => Ok a
  | None => Raise IndexError
  end.

Definition char_at (s : string) (n : nat) : result ascii :=
  match String.get n s with
  | Some c => Ok c
  | None => Raise IndexError
  end.

(** [s.startswith('@')] *)
Definition startswith_at (s : string) : bool :=
  match s with
  | String c _ => Ascii.eqb c "@"
  | EmptyString => false
  end.

(** [s.strip("\n")] *)
Fixpoint lstrip_nl (cs : list ascii) : list ascii :=
  match cs with
  | c :: cs' => if Ascii.eqb c nl then lstrip_nl cs' else cs
  | [] => []
  end.

Definition strip_nl (s : string) : string :=
  string_of_list_ascii
    (rev (lstrip_nl (rev (lstrip_nl (list_ascii_of_string s))))).

(** [a < b] on values that are an int or [None]. *)
Definition lt (a b : option Z) : result bool :=
  match a, b with
  | Some x, Some y => Ok (x <? y)
  | _, _ => Raise TypeError
  end.

End Py.

Arguments Py.digit : simpl never.
Arguments Py.isdigit : simpl never.
Arguments Py.isspace : simpl never.
Arguments Py.int : simpl never.

(** ** class sam_info *)

Definition is_S (c : ascii) : bool := Ascii.eqb c "S" || Ascii.eqb c "s".

(** [soft_amt] is the int 0, one character or the two-character prefix; the
    function returns [int(soft_amt)]. *)
Definition soft_check (align : string) : result Z :=
  c1 <- Py.char_at align 1 ;;
  if is_S c1 then
    c0 <- Py.char_at align 0 ;;
    Py.int (String c0 EmptyString)
  else
    c2 <- Py.char_at align 2 ;;
    if is_S c2 then Py.int (substring 0 2 align)
    else Ok 0.

(** The [return] sits inside the loop body: the loop leaves on its first
    character, and an empty string falls off the end of the function, which
    returns [None]. *)
Definition convert_phred (line : string) : result (option Z) :=
  qual <- Py.item (Py.split_tab line) 10 ;;
  match qual with
  | String letter _ => Ok (Some (0 + (Py.ord letter - 33)))
  | EmptyString => Ok None
  end.

Definition start_pos (line : string) : result Z :=
  f3 <- Py.item (Py.split_tab line) 3 ;;
  p <- Py.int f3 ;;
  align <- Py.item (Py.split_tab line) 5 ;;
  soft <- soft_check align ;;
  Ok (if 0 <? soft then p - soft else p).

(** Returns [(strand, umap)]; [umap] is [""] for a mapped primary alignment
    and [None] otherwise. *)
Definition bit_check (line : string) : result (string * option string) :=
  f1 <- Py.item (Py.split_tab line) 1 ;;
  flag <- Py.int f1 ;;
  let umap :=
    if negb (Z.land flag 4 =? 4) && negb (Z.land flag 256 =? 256)
    then Some "" else None in
  let strand := if Z.land flag 16 =? 16 then "-" else "+" in
  Ok (strand, umap).

(** ** The shell pipeline run by [barcode_get]

    [cat sam | cut -f 1 | grep -v '^@' | sed -n 'COUNT'p | grep -o 'seq'],
    with [seq] the pattern [[ACGTN^-]\{ID,\}].  [sam] is the file as a list
    of lines, each ended by a line feed, the last one possibly not.

    The tools are given as they act on text.  GNU grep treats input that
    holds a NUL byte as binary and prints no line from the block in which it
    meets one; which lines that drops depends on how the pipe delivers the
    blocks.  Statements that say which id a record gets are therefore made
    for text files ([text_file] below). *)

Module Sh.

(** The tools see a line without its terminator. *)
Fixpoint chomp (line : string) : string :=
  match line with
  | EmptyString => EmptyString
  | String c EmptyString =>
      if Ascii.eqb c Py.nl then EmptyString else line
  | String c rest => String c (chomp rest)
  end.

(** [cut -f 1] *)
Definition cut_f1 (line : string) : string :=
  hd EmptyString (Py.split_tab (chomp line)).

(** [grep -v '^@'] *)
Definition grep_v_at (names : list string) : list string :=
  filter (fun n => negb (Py.startswith_at n)) names.

(** [sed -n 'N'p]: the N-th line, counted from 1; address 0 is refused and
    prints nothing. *)
Definition sed_n_p (N : nat) (names : list string) : option string :=
  match N with
  | O => None
  | S n => nth_error names n
  end.

(** The bracket expression [[ACGTN^-]]. *)
Definition in_class (c : ascii) : bool :=
  existsb (Ascii.eqb c) (list_ascii_of_string "ACGTN^-").

(** The name cut at every character outside the class: the maximal runs of
    class characters, empty ones included. *)
Fixpoint pieces (s : string) : list string :=
  match s with
  | EmptyString => [EmptyString]
  | String c s' =>
      if in_class c then
        match pieces s' with
        | r :: rs => String c r :: rs
        | [] => [String c EmptyString]
        end
      else EmptyString :: pieces s'
  end.

Definition long_enough (ID : Z) (r : string) : bool :=
  (1 <=? Z.of_nat (String.length r)) && (ID <=? Z.of_nat (String.length r)).

(** [grep -o]: the leftmost-longest non-empty matches, left to right.  A
    negative bound or one above 32767 is not a valid interval: grep then
    fails and prints nothing. *)
Definition grep_o (ID : Z) (name : string) : list string :=
  if (ID <? 0) || (32767 <? ID) then []
  else filter (long_enough ID) (pieces name).

Definition names (sam : list string) : list string :=
  grep_v_at (map cut_f1 sam).

(** [subprocess.check_output]: the text printed, or [None] when the last
    command of the pipeline selects nothing (which raises
    [CalledProcessError]). *)
Definition check_output (sam : list string) (ID : Z) (COUNT : nat)
  : option string :=
  match sed_n_p COUNT (names sam) with
  | None => None
  | Some name =>
      match grep_o ID name with
      | [] => None
      | ms =>
          Some (String.concat EmptyString
                  (map (fun m => m ++ String Py.nl EmptyString)%string ms))
      end
  end.

End Sh.

(** [barcode_get] reads the global [COUNT] and adds one to it; the bare
    [except] leaves [BC] at [""]. *)
Definition barcode_get (sam : list string) (ID : Z) (COUNT : nat)
  : string * nat :=
  let BC := match Sh.check_output sam ID COUNT with
            | Some out => out
            | None => EmptyString
            end in
  (Py.strip_nl BC, S COUNT).

Record sam_info_obj : Type := {
  self_line : string;
  self_start_pos : Z;
  self_qual_score : option Z;
  self_strand : string * option string;
  self_BC : string
}.

(** [sam_info.__init__], with the global [COUNT] threaded through. *)
Definition sam_info (sam : list string) (ID : Z) (COUNT : nat) (line : string)
  : result (sam_info_obj * nat) :=
  sp <- start_pos line ;;
  q <- convert_phred line ;;
  st <- bit_check line ;;
  let bc := barcode_get sam ID COUNT in
  Ok ({| self_line := line; self_start_pos := sp; self_qual_score := q;
         self_strand := st; self_BC := fst bc |}, snd bc).

(** ** class rmdup *)

Definition key : Type := string * Z * string.

Definition key_eqb (a b : key) : bool :=
  match a, b with
  | (bc1, p1, s1), (bc2, p2, s2) =>
      String.eqb bc1 bc2 && (p1 =? p2) && String.eqb s1 s2
  end.

Definition dict : Type := list (key * string).

(** [k in d.keys()] *)
Fixpoint dict_has (k : key) (d : dict) : bool :=
  match d with
  | [] => false
  | (k', _) :: d' => key_eqb k' k || dict_has k d'
  end.

(** [d[k] = v]: an existing key keeps its place, a new one goes last. *)
Fixpoint dict_set (k : key) (v : string) (d : dict) : dict :=
  match d with
  | [] => [(k, v)]
  | (k', v') :: d' =>
      if key_eqb k' k then (k', v) :: d' else (k', v') :: dict_set k v d'
  end.

Definition dict_values (d : dict) : list string := map snd d.

(** The globals [COUNT], [NR], [place] and the local [bestScore]. *)
Record state : Type := {
  COUNT : nat;
  NR : Z;
  place : dict;
  bestScore : option Z
}.

(** The replacing loop: [break] is at the level of the [if], so the loop
    body runs for the first key only. *)
Definition replace_loop (val : key) (ln : string) (d : dict) : dict :=
  match d with
  | [] => d
  | (k, _) :: _ => if key_eqb k val then dict_set val ln d else d
  end.

Definition val_of (line : sam_info_obj) : key :=
  (self_BC line, self_start_pos line, fst (self_strand line)).

Definition ignored (line : sam_info_obj) : bool :=
  match snd (self_strand line) with
  | None => true
  | Some _ => String.eqb (self_BC line) EmptyString
  end.

(** One turn of the [for line in sam] loop. *)
Definition inter_sam_line (sam : list string) (ID : Z) (st : state)
  (raw : string) : result state :=
  if Py.startswith_at raw then Ok st
  else
    r <- sam_info sam ID (COUNT st) raw ;;
    let line := fst r in
    let st1 := {| COUNT := snd r; NR := NR st + 1;
                  place := place st; bestScore := bestScore st |} in
    let val := val_of line in
    if ignored line then Ok st1
    else
      higher <- (if dict_has val (place st)
                 then Py.lt (bestScore st) (self_qual_score line)
                 else Ok false) ;;
      if higher then
        Ok {| COUNT := COUNT st1; NR := NR st1;
              place := replace_loop val (self_line line) (place st);
              bestScore := bestScore st |}
      else if negb (dict_has val (place st)) then
        Ok {| COUNT := COUNT st1; NR := NR st1;
              place := dict_set val (self_line line) (place st);
              bestScore := self_qual_score line |}
      else Ok st1.

Fixpoint inter_sam_loop (sam : list string) (ID : Z) (st : state)
  (lines : list string) : result state :=
  match lines with
  | [] => Ok st
  | raw :: rest =>
      st' <- inter_sam_line sam ID st raw ;;
      inter_sam_loop sam ID st' rest
  end.

(** [rmdup.inter_sam(sorted_sam)] from the globals [COUNT], [NR], [place]. *)
Definition inter_sam (sam : list string) (ID : Z) (COUNT0 : nat) (NR0 : Z)
  (place0 : dict) (sorted_sam : list string) : result state :=
  inter_sam_loop sam ID
    {| COUNT := COUNT0; NR := NR0; place := place0; bestScore := Some 0 |}
    sorted_sam.

(** The main block: [COUNT=1], [NR=0], [place={}], then the values of
    [place] are written out in order.  [sam] is the file named on the command
    line, which [barcode_get] reads; [sorted_sam] is the file iterated, the
    same file unless [--sort] is given. *)
Definition dedup (sam : list string) (ID : Z) (sorted_sam : list string)
  : result (list string) :=
  st <- inter_sam sam ID 1 0 [] sorted_sam ;;
  Ok (dict_values (place st)).

(** Without [--sort], on a file given by its lines.  The loop and the
    pipeline read the same lines only when the file is a text file; the two
    readers are told apart in [main_text] below. *)
Definition main (sam : list string) (ID : Z) : result (list string) :=
  dedup sam ID sam.

(** ** Notions of the specification *)

(** The quality score as specified: the sum of [code_point(c) - 33] over
    every character of the quality string. *)
Fixpoint spec_quality_score (qual : string) : Z :=
  match qual with
  | EmptyString => 0
  | String c rest => (Py.ord c - 33) + spec_quality_score rest
  end.

(** A descriptor that starts with a one- or two-digit length followed by
    S (or s): the length of that leading soft clip. *)
Definition leading_clip (align : string) : option Z :=
  match align with
  | String d1 (String c rest) =>
      if Py.isdigit d1 then
        if is_S c then Some (Py.digit d1)
        else if Py.isdigit c then
          match rest with
          | String s _ =>
              if is_S s then Some (10 * Py.digit d1 + Py.digit c) else None
          | EmptyString => None
          end
        else None
      else None
  | _ => None
  end.

(** Every contiguous piece of a string. *)
Fixpoint prefixes (s : string) : list string :=
  EmptyString ::
  match s with
  | EmptyString => []
  | String c s' => map (String c) (prefixes s')
  end.

Fixpoint suffixes (s : string) : list string :=
  s ::
  match s with
  | EmptyString => []
  | String _ s' => suffixes s'
  end.

Definition substrings (s : string) : list string :=
  flat_map prefixes (suffixes s).

Definition all_in_class (r : string) : bool :=
  forallb Sh.in_class (list_ascii_of_string r).

(** The name contains a contiguous run of characters of {A,C,G,T,N,^,-} of
    length at least [n]. *)
Definition has_run (n : Z) (name : string) : bool :=
  existsb (fun r => all_in_class r && (n <=? Z.of_nat (String.length r)))
    (substrings name).

Definition not_int (f : option string) : bool :=
  match f with
  | Some s => match Py.int_literal s with Some _ => false | None => true end
  | None => true
  end.

(** A line with fewer than 11 tab-separated fields, or whose flag or
    position field is not an integer. *)
Definition malformed (line : string) : bool :=
  let fields := Py.split_tab line in
  (List.length fields <? 11)%nat
  || not_int (nth_error fields 1) || not_int (nth_error fields 3).

(** The key under which [inter_sam] files a line classified at [COUNT]. *)
Definition key_at (sam : list string) (ID : Z) (COUNT : nat) (line : string)
  : result key :=
  r <- sam_info sam ID COUNT line ;;
  Ok (val_of (fst r)).

(** [bit_check] finds the line mapped and without secondary alignment. *)
Definition mapped_primary (line : string) : Prop :=
  exists strand umap, bit_check line = Ok (strand, Some umap).

(** The lines of a file that are not header lines. *)
Definition records (lines : list string) : list string :=
  filter (fun raw => negb (Py.startswith_at raw)) lines.

(** ** Sample records *)

Module Sample.

Definition tsv (fields : list string) : string :=
  (String.concat (String Py.tab EmptyString) fields
     ++ String Py.nl EmptyString)%string.

(** An alignment line with the eleven mandatory fields and one tag. *)
Definition sam_line (name flag pos cigar qual : string) : string :=
  tsv [name; flag; "chr1"; pos; "60"; cigar; "*"; "0"; "0"; "ACGTACGTAC";
       qual; "NM:i:0"].

Definition q10 := sam_line "r1:AAAAAA" "0" "100" "10M" "++++++++++".
Definition q50_other := sam_line "r2:CCCCCC" "0" "100" "10M" "SSSSSSSSSS".
Definition q30 := sam_line "r3:AAAAAA" "0" "100" "10M" "??????????".

Definition tie1 := sam_line "r1:AAAAAA" "0" "100" "10M" "??????????".
Definition low_other := sam_line "r2:CCCCCC" "0" "100" "10M" "++++++++++".
Definition tie2 := sam_line "r3:AAAAAA" "0" "100" "10M" "??????????".

Definition qual_III := sam_line "r1:AAAAAA" "0" "100" "10M" "III".
Definition qual_bang := sam_line "r1:AAAAAA" "0" "100" "10M" "!!!".
Definition qual_empty := sam_line "r1:AAAAAA" "0" "100" "10M" "".

Definition clip5 := sam_line "r1:AAAAAA" "0" "100" "5S20M" "IIIIIIIIII".
Definition short_cigar := sam_line "r1:AAAAAA" "0" "100" "5M" "IIIII".
Definition clip100 := sam_line "r1:AAAAAA" "0" "50" "100S20M" "IIIIIIIIII".
Definition clip12_at_7 :=
  sam_line "r1:AAAAAA" "0" "7" "12S20M" "IIIIIIIIII".

Definition unmapped := sam_line "r9:GGGGGG" "4" "100" "10M" "IIIIIIIIII".
Definition secondary := sam_line "r8:TTTTTT" "256" "100" "10M" "IIIIIIIIII".
Definition no_id := sam_line "read7:xyz:ACG" "0" "100" "10M" "IIIIIIIIII".

Definition too_few := tsv ["r5:AAAAAA"; "0"; "chr1"; "100"].
Definition bad_flag := sam_line "r5:AAAAAA" "x" "100" "10M" "IIIIIIIIII".

End Sample.

(** ** The rest of the main block *)

(** [s.split(sep)] for a separator of one character. *)
Fixpoint split_char (sep : ascii) (s : string) : list string :=
  match s with
  | EmptyString => [EmptyString]
  | String c s' =>
      if Ascii.eqb c sep then EmptyString :: split_char sep s'
      else match split_char sep s' with
           | f :: fs => String c f :: fs
           | [] => [String c EmptyString]
           end
  end.

(** The name of the file written: [args.sam.split(".")[0]+"_deduped.sam"]. *)
Definition deduped_name (sam : string) : string :=
  (hd EmptyString (split_char "." sam) ++ "_deduped.sam")%string.

(** ** Shapes of lines and names used in the properties *)

Definition no_dot (s : string) : bool :=
  forallb (fun c => negb (Ascii.eqb c ".")) (list_ascii_of_string s).

Definition soft_ok (align : string) : bool :=
  match soft_check align with
  | Ok _ => true
  | Raise _ => false
  end.

(** At least 11 fields, integer flag and position, and a descriptor that
    [soft_check] accepts. *)
Definition classifiable (line : string) : bool :=
  negb (malformed line)
  && match nth_error (Py.split_tab line) 5 with
     | Some align => soft_ok align
     | None => false
     end.

(** The quality string (field 10) is not empty. *)
Definition has_quality (line : string) : bool :=
  match nth_error (Py.split_tab line) 10 with
  | Some (String _ _) => true
  | _ => false
  end.

(** A text whose first and last characters are class characters. *)
Definition class_ends (l : list ascii) : Prop :=
  (exists c t, l = c :: t /\ Sh.in_class c = true)
  /\ (exists c t, rev l = c :: t /\ Sh.in_class c = true).

(** ** The two readers of a file

    The loop iterates a file opened in text mode: a line ends at a line feed,
    at a carriage return followed by a line feed and at a lone carriage
    return alike, and is handed out ended by a line feed.  The tools of the
    pipeline end a line at a line feed only. *)

Module File.

Definition cr : ascii := "013"%char.

(** [for line in sam] over the characters of the file. *)
Fixpoint py_lines (text : string) : list string :=
  match text with
  | EmptyString => []
  | String c rest =>
      if Ascii.eqb c Py.nl then String Py.nl EmptyString :: py_lines rest
      else if Ascii.eqb c cr then
        String Py.nl EmptyString ::
        match rest with
        | String c' rest' =>
            if Ascii.eqb c' Py.nl then py_lines rest' else py_lines rest
        | EmptyString => []
        end
      else
        match py_lines rest with
        | l :: ls => String c l :: ls
        | [] => [String c EmptyString]
        end
  end.

(** The lines [cat] passes on, terminator kept. *)
Fixpoint sh_lines (text : string) : list string :=
  match text with
  | EmptyString => []
  | String c rest =>
      if Ascii.eqb c Py.nl then String Py.nl EmptyString :: sh_lines rest
      else
        match sh_lines rest with
        | l :: ls => String c l :: ls
        | [] => [String c EmptyString]
        end
  end.

End File.

(** The run without [--sort] on the characters of the file. *)
Definition main_text (text : string) (ID : Z) : result (list string) :=
  dedup (File.sh_lines text) ID (File.py_lines text).

(** ** Text files *)

(** A character of a line of text: ASCII, not NUL, not a line feed or a
    carriage return. *)
Definition plain_char (c : ascii) : bool :=
  let n := Py.ord c in
  (0 <? n) && (n <? 128) && negb (n =? 10) && negb (n =? 13).

(** The characters of a text file: as above, line feeds allowed. *)
Definition plain_text (text : string) : bool :=
  forallb (fun c => plain_char c || Ascii.eqb c Py.nl)
    (list_ascii_of_string text).

(** A line that is not empty and, its terminator apart, holds plain
    characters only. *)
Definition plain_line (line : string) : bool :=
  negb (String.eqb line EmptyString)
  && forallb plain_char (list_ascii_of_string (Sh.chomp line)).

(** The line ends with a line feed. *)
Fixpoint ends_nl (line : string) : bool :=
  match line with
  | EmptyString => false
  | String c EmptyString => Ascii.eqb c Py.nl
  | String _ rest => ends_nl rest
  end.

(** The lines of a text file: plain lines, each but the last ended by a line
    feed. *)
Fixpoint text_file (sam : list string) : bool :=
  match sam with
  | [] => true
  | l :: rest =>
      plain_line l
      && match rest with [] => true | _ :: _ => ends_nl l end
      && text_file rest
  end.

(** The read name of a line: the characters before the first tab or line
    feed. *)
Fixpoint name_field (line : string) : string :=
  match line with
  | EmptyString => EmptyString
  | String c rest =>
      if Ascii.eqb c Py.tab || Ascii.eqb c Py.nl then EmptyString
      else String c (name_field rest)
  end.

(** ** The id found in a name *)

(** The longest prefix made of class characters. *)
Fixpoint class_prefix (s : string) : string :=
  match s with
  | EmptyString => EmptyString
  | String c s' =>
      if Sh.in_class c then String c (class_prefix s') else EmptyString
  end.

(** The maximal runs of class characters, left to right: at every class
    character that does not follow a class character, the longest run that
    starts there. *)
Fixpoint runs_from (after_class : bool) (s : string) : list string :=
  match s with
  | EmptyString => []
  | String c s' =>
      ((if negb after_class && Sh.in_class c then [class_prefix s] else [])
         ++ runs_from (Sh.in_class c) s')%list
  end.

Definition maximal_runs (name : string) : list string := runs_from false name.

(** The maximal runs of at least [ID] class characters. *)
Definition long_runs (ID : Z) (name : string) : list string :=
  filter (fun r => ID <=? Z.of_nat (String.length r)) (maximal_runs name).

(** The id a name yields: its long runs, one per line. *)
Definition id_in (ID : Z) (name : string) : string :=
  String.concat (String Py.nl EmptyString) (long_runs ID name).

(** The id of the record with ordinal [n + 1] among the non-header lines of
    a file; empty when the file has no such record. *)
Definition id_at (sam : list string) (ID : Z) (n : nat) : string :=
  match nth_error (records sam) n with
  | Some l => id_in ID (name_field l)
  | None => EmptyString
  end.

(** A text laid out as gaps and runs in turn: [g1 m1 g2 m2 ... last]. *)
Fixpoint weave (gm : list (string * string)) (last : string) : string :=
  match gm with
  | [] => last
  | (g, m) :: rest => (g ++ m ++ weave rest last)%string
  end.

(** The exceptions classification can raise. *)
Definition index_or_value (e : exn) : Prop := e = IndexError \/ e = ValueError.

(** ** The exception monad and the loop *)

Lemma bind_ok {A B : Type} (m : result A) (k : A -> result B) (b : B) :
  bind m k = Ok b -> exists a, m = Ok a /\ k a = Ok b.
Proof.
  destruct m as [a | e]; simpl; intro H.
  - exists a. split; [reflexivity | exact H].
  - discriminate H.
Qed.

Lemma bind_raises_left {A B : Type} (m : result A) (k : A -> result B) :
  raises m -> raises (bind m k).
Proof.
  intros [e He]. exists e. rewrite He. reflexivity.
Qed.

Lemma inter_sam_loop_app (sam : list string) (ID : Z) (pre post : list string) :
  forall st,
    inter_sam_loop sam ID st (pre ++ post) =
    bind (inter_sam_loop sam ID st pre)
         (fun st' => inter_sam_loop sam ID st' post).
Proof.
  induction pre as [| raw pre IH]; intro st; simpl.
  - reflexivity.
  - destruct (inter_sam_line sam ID st raw) as [st' | e]; simpl.
    + apply IH.
    + reflexivity.
Qed.

(** ** Quality aggregation *)

Lemma convert_phred_first_character (line : string) (c : ascii)
  (rest : string) :
  nth_error (Py.split_tab line) 10 = Some (String c rest) ->
  convert_phred line = Ok (Some (Py.ord c - 33)).
Proof.
  intro H. unfold convert_phred, Py.item. rewrite H. reflexivity.
Qed.

(** C1. The score is specified as the sum of [code_point(c) - 33] over the
    whole quality string: 0 for ["!!!"], 120 for ["III"], 0 for the empty
    string.  [convert_phred] returns from inside its loop: on the record with
    quality ["III"] it yields 40, the score of the first character, and on an
    empty quality string it yields [None]; only the all-['!'] case agrees. *)
Theorem convert_phred_stops_after_first_character :
  nth_error (Py.split_tab Sample.qual_III) 10 = Some "III"
  /\ spec_quality_score "III" = 120
  /\ convert_phred Sample.qual_III = Ok (Some 40)
  /\ convert_phred Sample.qual_bang = Ok (Some (spec_quality_score "!!!"))
  /\ nth_error (Py.split_tab Sample.qual_empty) 10 = Some ""
  /\ spec_quality_score "" = 0
  /\ convert_phred Sample.qual_empty = Ok None.
Proof.
  repeat split; vm_compute; reflexivity.
Qed.

(** ** The dictionary *)

Lemma key_eqb_eq (a b : key) : key_eqb a b = true <-> a = b.
Proof.
  destruct a as [[bc1 p1] s1], b as [[bc2 p2] s2]. unfold key_eqb.
  rewrite !andb_true_iff, !String.eqb_eq, Z.eqb_eq.
  split.
  - intros [[-> ->] ->]. reflexivity.
  - intro H. inversion H. auto.
Qed.

Lemma key_eqb_refl (a : key) : key_eqb a a = true.
Proof. apply key_eqb_eq. reflexivity. Qed.

Lemma dict_has_In (k : key) (d : dict) :
  dict_has k d = true <-> In k (map fst d).
Proof.
  induction d as [| [k' v'] d IH]; simpl.
  - split; [discriminate | contradiction].
  - rewrite orb_true_iff, key_eqb_eq, IH. reflexivity.
Qed.

Lemma dict_set_absent (k : key) (v : string) (d : dict) :
  dict_has k d = false -> dict_set k v d = (d ++ [(k, v)])%list.
Proof.
  induction d as [| [k' v'] d IH]; simpl; intro H.
  - reflexivity.
  - apply orb_false_iff in H. destruct H as [Hk Hd].
    rewrite Hk, (IH Hd). reflexivity.
Qed.

Lemma dict_set_keys_present (k : key) (v : string) (d : dict) :
  dict_has k d = true -> map fst (dict_set k v d) = map fst d.
Proof.
  induction d as [| [k' v'] d IH]; simpl; intro H.
  - discriminate H.
  - destruct (key_eqb k' k) eqn:Hk; simpl.
    + reflexivity.
    + rewrite IH; [reflexivity | exact H].
Qed.

Lemma dict_set_values (k : key) (v : string) (d : dict) (x : string) :
  In x (dict_values (dict_set k v d)) -> x = v \/ In x (dict_values d).
Proof.
  unfold dict_values.
  induction d as [| [k' v'] d IH]; simpl.
  - intros [H | []]. left. symmetry. exact H.
  - destruct (key_eqb k' k); simpl.
    + intros [H | H]; [left; symmetry; exact H | right; right; exact H].
    + intros [H | H]; [right; left; exact H |].
      destruct (IH H) as [H' | H']; [left; exact H' | right; right; exact H'].
Qed.

Lemma replace_loop_values (k : key) (v : string) (d : dict) (x : string) :
  In x (dict_values (replace_loop k v d)) -> x = v \/ In x (dict_values d).
Proof.
  unfold replace_loop. destruct d as [| [k' v'] d'].
  - intro H. right. exact H.
  - destruct (key_eqb k' k).
    + apply dict_set_values.
    + intro H. right. exact H.
Qed.

Lemma replace_loop_keys (k : key) (v : string) (d : dict) :
  map fst (replace_loop k v d) = map fst d.
Proof.
  unfold replace_loop. destruct d as [| [k' v'] d']; [reflexivity |].
  destruct (key_eqb k' k) eqn:Hk; [| reflexivity].
  apply dict_set_keys_present. simpl. rewrite Hk. reflexivity.
Qed.

(** ** What one classification and one loop turn do *)

Lemma sam_info_ok (sam : list string) (ID : Z) (c c' : nat) (line : string)
  (r : sam_info_obj) :
  sam_info sam ID c line = Ok (r, c') ->
  self_line r = line
  /\ start_pos line = Ok (self_start_pos r)
  /\ convert_phred line = Ok (self_qual_score r)
  /\ bit_check line = Ok (self_strand r)
  /\ self_BC r = fst (barcode_get sam ID c)
  /\ c' = S c.
Proof.
  unfold sam_info. intro H.
  apply bind_ok in H. destruct H as [sp [Hsp H]].
  apply bind_ok in H. destruct H as [q [Hq H]].
  apply bind_ok in H. destruct H as [st [Hst H]].
  inversion H; subst; simpl. auto 6.
Qed.

(** The table after a turn is the table before it, or one entry was replaced
    by, or added for, a line that is not ignored. *)
Lemma inter_sam_line_cases (sam : list string) (ID : Z) (st st' : state)
  (raw : string) :
  inter_sam_line sam ID st raw = Ok st' ->
  place st' = place st
  \/ exists r c,
       sam_info sam ID (COUNT st) raw = Ok (r, c)
       /\ ignored r = false
       /\ (place st' = replace_loop (val_of r) raw (place st)
           \/ (dict_has (val_of r) (place st) = false
               /\ place st' = dict_set (val_of r) raw (place st))).
Proof.
  unfold inter_sam_line.
  destruct (Py.startswith_at raw).
  - intro H. inversion H. left. reflexivity.
  - intro H. apply bind_ok in H. destruct H as [[r c] [Hr H]].
    destruct (sam_info_ok _ _ _ _ _ _ Hr) as [Hline _].
    simpl in H.
    destruct (ignored r) eqn:Hig.
    + inversion H. left. reflexivity.
    + apply bind_ok in H. destruct H as [higher [_ H]].
      destruct higher.
      * inversion H; simpl. right. exists r, c. rewrite Hline. auto.
      * destruct (dict_has (val_of r) (place st)) eqn:Hhas; simpl in H.
        -- inversion H. left. reflexivity.
        -- inversion H; simpl. right. exists r, c. rewrite Hline. auto.
Qed.

Lemma NoDup_snoc {A : Type} (l : list A) (a : A) :
  NoDup l -> ~ In a l -> NoDup (l ++ [a])%list.
Proof.
  induction l as [| b l IH]; simpl; intros Hnd Hin.
  - constructor; [intros [] | constructor].
  - inversion Hnd as [| b' l' Hb Hl]; subst.
    constructor.
    + rewrite in_app_iff. simpl. intros [H | [H | []]].
      * exact (Hb H).
      * apply Hin. left. symmetry. exact H.
    + apply IH; [exact Hl |]. intro H. apply Hin. right. exact H.
Qed.

(** At most one entry per key, after any number of turns. *)
Lemma inter_sam_line_keys_distinct (sam : list string) (ID : Z)
  (st st' : state) (raw : string) :
  NoDup (map fst (place st)) ->
  inter_sam_line sam ID st raw = Ok st' ->
  NoDup (map fst (place st')).
Proof.
  intros Hnd H. apply inter_sam_line_cases in H.
  destruct H as [-> | [r [c [_ [_ [-> | [Habs ->]]]]]]].
  - exact Hnd.
  - rewrite replace_loop_keys. exact Hnd.
  - rewrite (dict_set_absent _ _ _ Habs), map_app. simpl.
    apply NoDup_snoc; [exact Hnd |].
    intro Hin. apply dict_has_In in Hin. congruence.
Qed.

Lemma inter_sam_loop_keys_distinct (sam : list string) (ID : Z)
  (lines : list string) :
  forall st st',
    NoDup (map fst (place st)) ->
    inter_sam_loop sam ID st lines = Ok st' ->
    NoDup (map fst (place st')).
Proof.
  induction lines as [| raw rest IH]; simpl; intros st st' Hnd H.
  - inversion H; subst. exact Hnd.
  - apply bind_ok in H. destruct H as [st1 [H1 H]].
    apply (IH st1 st'); [| exact H].
    exact (inter_sam_line_keys_distinct _ _ _ _ _ Hnd H1).
Qed.

(** ** Which duplicate survives *)

(** C2. The table is specified to hold, for every key, a line of maximal
    quality among the eligible records seen with that key.  [inter_sam]
    keeps one [bestScore] for the whole table, set only when a new key is
    inserted, and its replacing loop looks at the first key only.  First
    stream: the scores 10 and 30 share a key and a record of another key with
    score 50 arrives between them; the record with score 10 survives.  Second
    stream: the duplicates with scores 10 and 50 belong to the second key of
    the table; the record with score 10 survives. *)
Theorem inter_sam_keeps_lower_quality_duplicate :
  let sam1 := [Sample.q10; Sample.q50_other; Sample.q30] in
  let sam2 := [Sample.q10; Sample.low_other; Sample.q50_other] in
  key_at sam1 6 1 Sample.q10 = Ok ("AAAAAA", 100, "+")
  /\ key_at sam1 6 3 Sample.q30 = Ok ("AAAAAA", 100, "+")
  /\ convert_phred Sample.q10 = Ok (Some 10)
  /\ convert_phred Sample.q30 = Ok (Some 30)
  /\ main sam1 6 = Ok [Sample.q10; Sample.q50_other]
  /\ key_at sam2 6 2 Sample.low_other = Ok ("CCCCCC", 100, "+")
  /\ key_at sam2 6 3 Sample.q50_other = Ok ("CCCCCC", 100, "+")
  /\ convert_phred Sample.low_other = Ok (Some 10)
  /\ convert_phred Sample.q50_other = Ok (Some 50)
  /\ main sam2 6 = Ok [Sample.q10; Sample.low_other].
Proof.
  repeat split; vm_compute; reflexivity.
Qed.

(** C3. On a tie the first record met is specified to be retained, whatever
    records of other keys lie between.  Here two records share key and score
    30 and a record of another key with score 10 lies between them:
    [bestScore] is 10 when the second one arrives, so it replaces the
    first. *)
Theorem inter_sam_tie_replaces_first_record :
  let sam := [Sample.tie1; Sample.low_other; Sample.tie2] in
  key_at sam 6 1 Sample.tie1 = Ok ("AAAAAA", 100, "+")
  /\ key_at sam 6 3 Sample.tie2 = Ok ("AAAAAA", 100, "+")
  /\ convert_phred Sample.tie1 = Ok (Some 30)
  /\ convert_phred Sample.tie2 = Ok (Some 30)
  /\ Sample.tie1 <> Sample.tie2
  /\ main sam 6 = Ok [Sample.tie2; Sample.low_other].
Proof.
  repeat split; try (vm_compute; reflexivity).
  vm_compute. discriminate.
Qed.

(** ** Unmapped and secondary alignments *)

Lemma bit_check_flag (line f1 : string) (flag : Z) :
  nth_error (Py.split_tab line) 1 = Some f1 ->
  Py.int_literal f1 = Some flag ->
  bit_check line =
  Ok (if Z.land flag 16 =? 16 then "-" else "+",
      if negb (Z.land flag 4 =? 4) && negb (Z.land flag 256 =? 256)
      then Some "" else None).
Proof.
  intros Hf Hi. unfold bit_check, Py.item, Py.int. rewrite Hf. simpl.
  rewrite Hi. reflexivity.
Qed.

Lemma bit_check_excluded (line f1 : string) (flag : Z) :
  nth_error (Py.split_tab line) 1 = Some f1 ->
  Py.int_literal f1 = Some flag ->
  Z.land flag 4 = 4 \/ Z.land flag 256 = 256 ->
  ~ mapped_primary line.
Proof.
  intros Hf Hi Hbits [strand [umap Hb]].
  rewrite (bit_check_flag _ _ _ Hf Hi) in Hb.
  destruct Hbits as [H | H]; rewrite H in Hb; simpl in Hb.
  - discriminate Hb.
  - rewrite andb_false_r in Hb. discriminate Hb.
Qed.

Lemma not_ignored_mapped (sam : list string) (ID : Z) (c c' : nat)
  (raw : string) (r : sam_info_obj) :
  sam_info sam ID c raw = Ok (r, c') ->
  ignored r = false ->
  mapped_primary raw.
Proof.
  intros Hr Hig. destruct (sam_info_ok _ _ _ _ _ _ Hr) as [_ [_ [_ [Hb _]]]].
  unfold ignored in Hig. destruct (self_strand r) as [strand [umap |]];
    simpl in Hig; [| discriminate Hig].
  exists strand, umap. exact Hb.
Qed.

Lemma inter_sam_line_mapped (sam : list string) (ID : Z) (st st' : state)
  (raw : string) :
  (forall x, In x (dict_values (place st)) -> mapped_primary x) ->
  inter_sam_line sam ID st raw = Ok st' ->
  forall x, In x (dict_values (place st')) -> mapped_primary x.
Proof.
  intros Hinv H x Hx. apply inter_sam_line_cases in H.
  destruct H as [Heq | [r [c [Hr [Hig [Heq | [_ Heq]]]]]]];
    rewrite Heq in Hx.
  - apply Hinv. exact Hx.
  - apply replace_loop_values in Hx. destruct Hx as [-> | Hx].
    + exact (not_ignored_mapped _ _ _ _ _ _ Hr Hig).
    + apply Hinv. exact Hx.
  - apply dict_set_values in Hx. destruct Hx as [-> | Hx].
    + exact (not_ignored_mapped _ _ _ _ _ _ Hr Hig).
    + apply Hinv. exact Hx.
Qed.

Lemma inter_sam_loop_mapped (sam : list string) (ID : Z)
  (lines : list string) :
  forall st st',
    (forall x, In x (dict_values (place st)) -> mapped_primary x) ->
    inter_sam_loop sam ID st lines = Ok st' ->
    forall x, In x (dict_values (place st')) -> mapped_primary x.
Proof.
  induction lines as [| raw rest IH]; simpl; intros st st' Hinv H.
  - inversion H; subst. exact Hinv.
  - apply bind_ok in H. destruct H as [st1 [H1 H]].
    apply (IH st1 st'); [| exact H].
    exact (inter_sam_line_mapped _ _ _ _ _ Hinv H1).
Qed.

(** C9. A record whose flag has the unmapped bit (4) or the secondary bit
    (256) set is never put into the table: the turn of the loop that meets it
    leaves the table as it was, and the line is not among the lines written
    out, whatever the rest of the stream holds. *)
Theorem unmapped_or_secondary_never_kept (line f1 : string) (flag : Z) :
  nth_error (Py.split_tab line) 1 = Some f1 ->
  Py.int_literal f1 = Some flag ->
  Z.land flag 4 = 4 \/ Z.land flag 256 = 256 ->
  (forall sam ID st st',
      inter_sam_line sam ID st line = Ok st' -> place st' = place st)
  /\ (forall sam ID sorted_sam out,
         dedup sam ID sorted_sam = Ok out -> ~ In line out).
Proof.
  intros Hf Hi Hbits.
  pose proof (bit_check_excluded _ _ _ Hf Hi Hbits) as Hnot.
  split.
  - intros sam ID st st' H. apply inter_sam_line_cases in H.
    destruct H as [Heq | [r [c [Hr [Hig _]]]]]; [exact Heq |].
    exfalso. apply Hnot. exact (not_ignored_mapped _ _ _ _ _ _ Hr Hig).
  - intros sam ID sorted_sam out H Hin.
    unfold dedup, inter_sam in H.
    apply bind_ok in H. destruct H as [st [Hloop H]].
    inversion H; subst. apply Hnot.
    refine (inter_sam_loop_mapped _ _ _ _ _ _ Hloop line Hin).
    simpl. intros x [].
Qed.

Lemma unmapped_or_secondary_never_kept_witness :
  let sam := [Sample.q10; Sample.unmapped; Sample.secondary] in
  main sam 6 = Ok [Sample.q10]
  /\ ~ In Sample.unmapped [Sample.q10]
  /\ ~ In Sample.secondary [Sample.q10].
Proof.
  intro sam.
  assert (Hrun : dedup sam 6 sam = Ok [Sample.q10]) by (vm_compute; reflexivity).
  split; [exact Hrun |]. split.
  - apply (proj2 (unmapped_or_secondary_never_kept Sample.unmapped "4" 4
                    eq_refl eq_refl (or_introl eq_refl)) sam 6 sam).
    exact Hrun.
  - apply (proj2 (unmapped_or_secondary_never_kept Sample.secondary "256" 256
                    eq_refl eq_refl (or_intror eq_refl)) sam 6 sam).
    exact Hrun.
Defined.

(** ** The soft-clip resolver and the adjusted start *)

Lemma isdigit_facts (c : ascii) :
  Py.isdigit c = true ->
  Py.isspace c = false
  /\ Ascii.eqb c "+" = false
  /\ Ascii.eqb c "-" = false
  /\ is_S c = false
  /\ 0 <= Py.digit c <= 9.
Proof.
  destruct c as [[] [] [] [] [] [] [] []]; vm_compute; intro H;
    try discriminate H; repeat split; intro; discriminate.
Qed.

Lemma int_one_digit (d : ascii) :
  Py.isdigit d = true ->
  Py.int (String d EmptyString) = Ok (Py.digit d).
Proof.
  intro Hd. destruct (isdigit_facts d Hd) as [Hsp [Hplus [Hminus _]]].
  unfold Py.int, Py.int_literal. simpl.
  rewrite Hsp. simpl. rewrite Hsp. simpl.
  rewrite Hplus, Hminus, Hd. reflexivity.
Qed.

Lemma int_two_digits (d1 d2 : ascii) :
  Py.isdigit d1 = true ->
  Py.isdigit d2 = true ->
  Py.int (String d1 (String d2 EmptyString))
  = Ok (10 * Py.digit d1 + Py.digit d2).
Proof.
  intros H1 H2.
  destruct (isdigit_facts d1 H1) as [Hsp1 [Hplus [Hminus _]]].
  destruct (isdigit_facts d2 H2) as [Hsp2 _].
  unfold Py.int, Py.int_literal. simpl.
  rewrite Hsp1. simpl. rewrite Hsp2. simpl.
  rewrite Hplus, Hminus, H1, H2. reflexivity.
Qed.



Lemma soft_check_leading_clip (align : string) (n : Z) :
  leading_clip align = Some n ->
  soft_check align = Ok n /\ 0 <= n <= 99.
Proof.
  destruct align as [| d1 [| c rest]]; cbn -[Z.mul Z.add]; try discriminate.
  destruct (Py.isdigit d1) eqn:Hd1; [| discriminate].
  pose proof (isdigit_facts d1 Hd1) as [_ [_ [_ [_ Hr1]]]].
  unfold soft_check, Py.char_at. cbn -[Z.mul Z.add].
  destruct (is_S c) eqn:Hc; cbn -[Z.mul Z.add].
  - intros [= <-]. split; [apply int_one_digit; exact Hd1 | lia].
  - destruct (Py.isdigit c) eqn:Hd2; [| discriminate].
    pose proof (isdigit_facts c Hd2) as [_ [_ [_ [_ Hr2]]]].
    destruct rest as [| s rest']; [discriminate |]. cbn -[Z.mul Z.add].
    destruct (is_S s); [| discriminate].
    intro H.
    assert (Hn : n = 10 * Py.digit d1 + Py.digit c) by congruence.
    rewrite Hn.
    split; [apply int_two_digits; assumption | lia].
Qed.

Lemma start_pos_fields (line f3 align : string) (p soft : Z) :
  nth_error (Py.split_tab line) 3 = Some f3 ->
  Py.int_literal f3 = Some p ->
  nth_error (Py.split_tab line) 5 = Some align ->
  soft_check align = Ok soft ->
  start_pos line = Ok (if 0 <? soft then p - soft else p).
Proof.
  intros H3 Hp H5 Hs. unfold start_pos, Py.item.
  rewrite H3, H5. cbn [bind]. unfold Py.int. rewrite Hp. cbn [bind].
  rewrite Hs. reflexivity.
Qed.

Lemma start_pos_leading_clip (line f3 align : string) (p n : Z) :
  nth_error (Py.split_tab line) 3 = Some f3 ->
  Py.int_literal f3 = Some p ->
  nth_error (Py.split_tab line) 5 = Some align ->
  leading_clip align = Some n ->
  start_pos line = Ok (p - n).
Proof.
  intros H3 Hp H5 Hn.
  destruct (soft_check_leading_clip _ _ Hn) as [Hs Hr].
  rewrite (start_pos_fields _ _ _ _ _ H3 Hp H5 Hs).
  destruct (0 <? n) eqn:Hpos; [reflexivity |].
  apply Z.ltb_ge in Hpos. f_equal. lia.
Qed.







(** C10, as the code has it.  With a leading one- or two-digit soft clip of
    length [s] at position [p <= s], the adjusted start is [p - s], zero or
    negative; it is the middle component of the record's key, and an eligible
    record with a key not yet in the table is inserted under that key. *)
Theorem adjusted_start_not_clamped (sam : list string) (ID : Z) (st : state)
  (line f3 align : string) (p s : Z) :
  Py.startswith_at line = false ->
  nth_error (Py.split_tab line) 3 = Some f3 ->
  Py.int_literal f3 = Some p ->
  nth_error (Py.split_tab line) 5 = Some align ->
  leading_clip align = Some s ->
  p <= s ->
  start_pos line = Ok (p - s)
  /\ p - s <= 0
  /\ forall r c,
       sam_info sam ID (COUNT st) line = Ok (r, c) ->
       val_of r = (self_BC r, p - s, fst (self_strand r))
       /\ (ignored r = false ->
           dict_has (val_of r) (place st) = false ->
           exists st',
             inter_sam_line sam ID st line = Ok st'
             /\ place st' = (place st ++ [(val_of r, line)])%list).
Proof.
  intros Hhead H3 Hp H5 Hs Hle.
  pose proof (start_pos_leading_clip _ _ _ _ _ H3 Hp H5 Hs) as Hstart.
  split; [exact Hstart |]. split; [lia |].
  intros r c Hr.
  destruct (sam_info_ok _ _ _ _ _ _ Hr) as [Hline [Hsp _]].
  rewrite Hstart in Hsp. injection Hsp as Hsp.
  split.
  - unfold val_of. rewrite <- Hsp. reflexivity.
  - intros Hig Habs. unfold inter_sam_line.
    rewrite Hhead, Hr. cbn [bind fst snd]. rewrite Hig, Habs.
    cbn [bind negb]. eexists. split; [reflexivity |].
    cbn [place]. rewrite Hline. apply dict_set_absent. exact Habs.
Qed.

Lemma adjusted_start_not_clamped_witness :
  let sam := [Sample.clip12_at_7] in
  start_pos Sample.clip12_at_7 = Ok (7 - 12)
  /\ 7 - 12 <= 0
  /\ main sam 6 = Ok [Sample.clip12_at_7].
Proof.
  intro sam.
  pose proof (adjusted_start_not_clamped sam 6
                {| COUNT := 1; NR := 0; place := []; bestScore := Some 0 |}
                Sample.clip12_at_7 "7" "12S20M" 7 12
                eq_refl eq_refl eq_refl eq_refl eq_refl) as H.
  assert (Hle : 7 <= 12) by lia.
  destruct (H Hle) as [Hstart [Hneg _]].
  split; [exact Hstart |]. split; [exact Hneg |].
  vm_compute. reflexivity.
Defined.

(** C10 as stated fails for a leading clip of three digits: with ["100S20M"]
    at position 50 the adjusted start is 50, not 50 - 100. *)
Lemma three_digit_clip_not_subtracted :
  nth_error (Py.split_tab Sample.clip100) 3 = Some "50"
  /\ nth_error (Py.split_tab Sample.clip100) 5 = Some "100S20M"
  /\ start_pos Sample.clip100 = Ok 50
  /\ start_pos Sample.clip100 <> Ok (50 - 100).
Proof.
  repeat split; try (vm_compute; reflexivity).
  vm_compute. discriminate.
Qed.

(** ** Malformed lines *)

Lemma not_int_start_pos_raises (line : string) :
  not_int (nth_error (Py.split_tab line) 3) = true -> raises (start_pos line).
Proof.
  unfold not_int, start_pos, Py.item, Py.int.
  destruct (nth_error (Py.split_tab line) 3) as [f3 |]; cbn [bind].
  - destruct (Py.int_literal f3); [discriminate |].
    intros _. exists ValueError. reflexivity.
  - intros _. exists IndexError. reflexivity.
Qed.

Lemma not_int_bit_check_raises (line : string) :
  not_int (nth_error (Py.split_tab line) 1) = true -> raises (bit_check line).
Proof.
  unfold not_int, bit_check, Py.item, Py.int.
  destruct (nth_error (Py.split_tab line) 1) as [f1 |]; cbn [bind].
  - destruct (Py.int_literal f1); [discriminate |].
    intros _. exists ValueError. reflexivity.
  - intros _. exists IndexError. reflexivity.
Qed.

Lemma too_few_convert_phred_raises (line : string) :
  (List.length (Py.split_tab line) <? 11)%nat = true ->
  raises (convert_phred line).
Proof.
  intro H. apply Nat.ltb_lt in H.
  unfold convert_phred, Py.item.
  assert (Hn : nth_error (Py.split_tab line) 10 = None)
    by (apply nth_error_None; lia).
  rewrite Hn. exists IndexError. reflexivity.
Qed.

Lemma sam_info_malformed_raises (sam : list string) (ID : Z) (c : nat)
  (line : string) :
  malformed line = true -> raises (sam_info sam ID c line).
Proof.
  unfold malformed. rewrite !orb_true_iff. intros [[H | H] | H];
    unfold sam_info.
  - destruct (start_pos line); cbn [bind]; [| eexists; reflexivity].
    apply bind_raises_left. exact (too_few_convert_phred_raises _ H).
  - destruct (start_pos line); cbn [bind]; [| eexists; reflexivity].
    destruct (convert_phred line); cbn [bind]; [| eexists; reflexivity].
    apply bind_raises_left. exact (not_int_bit_check_raises _ H).
  - apply bind_raises_left. exact (not_int_start_pos_raises _ H).
Qed.

Lemma inter_sam_loop_raises_at (sam : list string) (ID : Z)
  (line : string) (post : list string) :
  (forall st, raises (inter_sam_line sam ID st line)) ->
  forall pre st, raises (inter_sam_loop sam ID st (pre ++ line :: post)).
Proof.
  intros Hline pre.
  induction pre as [| raw pre IH]; intro st; simpl.
  - apply bind_raises_left. apply Hline.
  - destruct (inter_sam_line sam ID st raw) as [st' | e]; cbn [bind].
    + apply IH.
    + exists e. reflexivity.
Qed.

(** C5 as stated fails: a line with four fields, and one with flag ["x"],
    each end the run with an exception although well-formed lines come
    before and after. *)
Lemma malformed_line_is_not_skipped :
  main [Sample.q10; Sample.too_few; Sample.q50_other] 6 = Raise IndexError
  /\ main [Sample.q10; Sample.bad_flag; Sample.q50_other] 6 = Raise ValueError
  /\ main [Sample.q10; Sample.q50_other] 6
     = Ok [Sample.q10; Sample.q50_other].
Proof.
  repeat split; vm_compute; reflexivity.
Qed.

(** ** The molecule id *)

Lemma substrings_unfold (s : string) :
  substrings s =
  (prefixes s ++ match s with
                 | EmptyString => []
                 | String _ s' => substrings s'
                 end)%list.
Proof.
  destruct s; reflexivity.
Qed.

Lemma prefixes_in_substrings (s x : string) :
  In x (prefixes s) -> In x (substrings s).
Proof.
  intro H. rewrite substrings_unfold. apply in_or_app. left. exact H.
Qed.

Lemma substrings_tail (c : ascii) (s x : string) :
  In x (substrings s) -> In x (substrings (String c s)).
Proof.
  intro H. rewrite (substrings_unfold (String c s)).
  apply in_or_app. right. exact H.
Qed.

(** Each piece is a run of class characters that occurs in the name. *)
Lemma pieces_shape (s : string) :
  exists r rs,
    Sh.pieces s = r :: rs
    /\ In r (prefixes s)
    /\ all_in_class r = true
    /\ forall x, In x rs -> In x (substrings s) /\ all_in_class x = true.
Proof.
  induction s as [| c s IH].
  - exists EmptyString, []. simpl. repeat split; auto; contradiction.
  - destruct IH as [r [rs [Hp [Hpre [Hcls Hrest]]]]].
    simpl Sh.pieces. rewrite Hp.
    destruct (Sh.in_class c) eqn:Hc.
    + exists (String c r), rs. split; [reflexivity |]. split.
      * simpl. right. apply in_map. exact Hpre.
      * split.
        -- unfold all_in_class. simpl. rewrite Hc. exact Hcls.
        -- intros x Hx. destruct (Hrest x Hx) as [Hin Hall].
           split; [apply substrings_tail; exact Hin | exact Hall].
    + exists EmptyString, (r :: rs). split; [reflexivity |]. split.
      * simpl. left. reflexivity.
      * split; [reflexivity |].
        intros x [<- | Hx].
        -- split; [| exact Hcls].
           apply substrings_tail, prefixes_in_substrings. exact Hpre.
        -- destruct (Hrest x Hx) as [Hin Hall].
           split; [apply substrings_tail; exact Hin | exact Hall].
Qed.

Lemma pieces_are_runs (s x : string) :
  In x (Sh.pieces s) -> In x (substrings s) /\ all_in_class x = true.
Proof.
  destruct (pieces_shape s) as [r [rs [Hp [Hpre [Hcls Hrest]]]]].
  rewrite Hp. intros [<- | Hx].
  - split; [apply prefixes_in_substrings; exact Hpre | exact Hcls].
  - apply Hrest. exact Hx.
Qed.

Lemma filter_none {A : Type} (f : A -> bool) (l : list A) :
  (forall x, In x l -> f x = false) -> filter f l = [].
Proof.
  induction l as [| a l IH]; simpl; intro H.
  - reflexivity.
  - rewrite (H a (or_introl eq_refl)). apply IH.
    intros x Hx. apply H. right. exact Hx.
Qed.

Lemma grep_o_no_run (ID : Z) (name : string) :
  has_run ID name = false -> Sh.grep_o ID name = [].
Proof.
  intro Hno. unfold Sh.grep_o.
  destruct ((ID <? 0) || (32767 <? ID)); [reflexivity |].
  apply filter_none. intros x Hx.
  destruct (pieces_are_runs _ _ Hx) as [Hin Hall].
  unfold Sh.long_enough.
  destruct (ID <=? Z.of_nat (String.length x)) eqn:Hlen;
    [| apply andb_false_r].
  exfalso. unfold has_run in Hno.
  assert (Hex : existsb
                  (fun r => all_in_class r
                            && (ID <=? Z.of_nat (String.length r)))
                  (substrings name) = true).
  { apply existsb_exists. exists x. split; [exact Hin |].
    rewrite Hall, Hlen. reflexivity. }
  congruence.
Qed.

(** C8 as stated fails: for a name without a run of six class characters
    the value returned is the empty string, not a value distinct from it. *)
Lemma barcode_get_absent_equals_empty_string :
  has_run 6 "read7:xyz:ACG" = false
  /\ Sh.sed_n_p 1 (Sh.names [Sample.no_id]) = Some "read7:xyz:ACG"
  /\ fst (barcode_get [Sample.no_id] 6 1) = EmptyString
  /\ ~ (fst (barcode_get [Sample.no_id] 6 1) <> EmptyString).
Proof.
  repeat split; try (vm_compute; reflexivity).
  intro H. apply H. vm_compute. reflexivity.
Qed.

(** ** Classifying a line again *)

(** C4 as stated fails: the first record of a two-record file, classified a
    second time in the same run, gets the molecule id of the second record. *)
Lemma reclassification_changes_molecule_id :
  let sam := [Sample.q10; Sample.q50_other] in
  exists r1 n1 r2 n2,
    sam_info sam 6 1 Sample.q10 = Ok (r1, n1)
    /\ sam_info sam 6 n1 Sample.q10 = Ok (r2, n2)
    /\ self_BC r1 = "AAAAAA"
    /\ self_BC r2 = "CCCCCC"
    /\ self_BC r1 <> self_BC r2.
Proof.
  intro sam. unfold sam.
  eexists. eexists. eexists. eexists.
  split; [vm_compute; reflexivity |].
  split; [vm_compute; reflexivity |].
  split; [reflexivity |]. split; [reflexivity |].
  simpl. discriminate.
Qed.

(** ** The record counter inside a run

    When the file iterated is the file the pipeline reads, the counter points
    at the line being classified: the id of a record comes from its own
    name. *)

Lemma startswith_at_cut_f1 (raw : string) :
  Py.startswith_at (Sh.cut_f1 raw) = Py.startswith_at raw.
Proof.
  unfold Sh.cut_f1. destruct raw as [| c rest]; [reflexivity |].
  destruct rest as [| c' rest'].
  - simpl Sh.chomp. destruct (Ascii.eqb c Py.nl) eqn:Hnl.
    + apply Ascii.eqb_eq in Hnl. subst c. reflexivity.
    + simpl. destruct (Ascii.eqb c Py.tab) eqn:Htab; [| reflexivity].
      apply Ascii.eqb_eq in Htab. subst c. reflexivity.
  - change (Sh.chomp (String c (String c' rest')))
      with (String c (Sh.chomp (String c' rest'))).
    generalize (Sh.chomp (String c' rest')). intro t.
    simpl Py.split_tab.
    destruct (Ascii.eqb c Py.tab) eqn:Htab.
    + apply Ascii.eqb_eq in Htab. subst c. reflexivity.
    + destruct (Py.split_tab t); reflexivity.
Qed.

Lemma names_app (pre post : list string) :
  Sh.names (pre ++ post) = (Sh.names pre ++ Sh.names post)%list.
Proof.
  unfold Sh.names, Sh.grep_v_at. rewrite map_app. apply filter_app.
Qed.

Lemma names_length (lines : list string) :
  List.length (Sh.names lines) = List.length (records lines).
Proof.
  unfold Sh.names, Sh.grep_v_at, records.
  induction lines as [| raw rest IH]; simpl; [reflexivity |].
  rewrite startswith_at_cut_f1.
  destruct (Py.startswith_at raw); simpl; rewrite IH; reflexivity.
Qed.

Lemma inter_sam_line_count (sam : list string) (ID : Z) (st st' : state)
  (raw : string) :
  inter_sam_line sam ID st raw = Ok st' ->
  COUNT st' = (COUNT st + List.length (records [raw]))%nat.
Proof.
  unfold inter_sam_line, records. simpl filter.
  destruct (Py.startswith_at raw); simpl.
  - intros [= <-]. lia.
  - intro H. apply bind_ok in H. destruct H as [[r c] [Hr H]].
    destruct (sam_info_ok _ _ _ _ _ _ Hr) as [_ [_ [_ [_ [_ Hc]]]]].
    simpl in H.
    destruct (ignored r).
    + injection H as <-. simpl. lia.
    + apply bind_ok in H. destruct H as [higher [_ H]].
      destruct higher; [injection H as <-; simpl; lia |].
      destruct (negb (dict_has (val_of r) (place st)));
        injection H as <-; simpl; lia.
Qed.

Lemma inter_sam_loop_count (sam : list string) (ID : Z) (lines : list string) :
  forall st st',
    inter_sam_loop sam ID st lines = Ok st' ->
    COUNT st' = (COUNT st + List.length (records lines))%nat.
Proof.
  induction lines as [| raw rest IH]; intros st st' H.
  - simpl in H. injection H as <-. simpl. lia.
  - simpl in H. apply bind_ok in H. destruct H as [st1 [H1 H]].
    rewrite (IH _ _ H), (inter_sam_line_count _ _ _ _ _ H1).
    unfold records. simpl filter.
    destruct (negb (Py.startswith_at raw)); simpl; lia.
Qed.

Lemma counter_selects_own_name (ID : Z) (pre post : list string)
  (raw : string) (st : state) :
  Py.startswith_at raw = false ->
  inter_sam ((pre ++ raw :: post)%list) ID 1 0 [] pre = Ok st ->
  Sh.sed_n_p (COUNT st) (Sh.names (pre ++ raw :: post)) = Some (Sh.cut_f1 raw).
Proof.
  intros Hhead H. unfold inter_sam in H.
  rewrite (inter_sam_loop_count _ _ _ _ _ H). simpl COUNT.
  rewrite names_app, <- names_length. simpl Sh.sed_n_p.
  rewrite nth_error_app2 by lia. rewrite Nat.sub_diag.
  unfold Sh.names, Sh.grep_v_at. simpl.
  rewrite startswith_at_cut_f1, Hhead. reflexivity.
Qed.

(** ** Further properties of the loop *)

(** Header lines leave every part of the state alone: running over a file is
    running over its non-header lines. *)
Theorem header_lines_are_skipped (sam : list string) (ID : Z)
  (lines : list string) :
  forall st,
    inter_sam_loop sam ID st lines = inter_sam_loop sam ID st (records lines).
Proof.
  induction lines as [| raw rest IH]; intro st; [reflexivity |].
  unfold records. simpl filter.
  destruct (Py.startswith_at raw) eqn:Hhead; simpl negb; cbv iota.
  - simpl inter_sam_loop. unfold inter_sam_line. rewrite Hhead.
    cbn [bind]. apply IH.
  - simpl inter_sam_loop.
    destruct (inter_sam_line sam ID st raw); cbn [bind]; [apply IH | reflexivity].
Qed.

Lemma inter_sam_line_NR (sam : list string) (ID : Z) (st st' : state)
  (raw : string) :
  inter_sam_line sam ID st raw = Ok st' ->
  NR st' = NR st + Z.of_nat (List.length (records [raw])).
Proof.
  unfold inter_sam_line, records. simpl filter.
  destruct (Py.startswith_at raw); simpl.
  - intros [= <-]. lia.
  - intro H. apply bind_ok in H. destruct H as [[r c] [Hr H]].
    simpl in H.
    destruct (ignored r).
    + injection H as <-. simpl. lia.
    + apply bind_ok in H. destruct H as [higher [_ H]].
      destruct higher; [injection H as <-; simpl; lia |].
      destruct (negb (dict_has (val_of r) (place st)));
        injection H as <-; simpl; lia.
Qed.

Lemma inter_sam_loop_NR (sam : list string) (ID : Z) (lines : list string) :
  forall st st',
    inter_sam_loop sam ID st lines = Ok st' ->
    NR st' = NR st + Z.of_nat (List.length (records lines)).
Proof.
  induction lines as [| raw rest IH]; intros st st' H.
  - simpl in H. injection H as <-. simpl. lia.
  - simpl in H. apply bind_ok in H. destruct H as [st1 [H1 H]].
    rewrite (IH _ _ H), (inter_sam_line_NR _ _ _ _ _ H1).
    unfold records. simpl filter.
    destruct (negb (Py.startswith_at raw)); simpl List.length; lia.
Qed.

(** After a run that does not raise, [COUNT] and [NR] have both advanced by
    the number of non-header lines of the file iterated. *)
Theorem counters_advance_by_record_count (sam : list string) (ID : Z)
  (COUNT0 : nat) (NR0 : Z) (place0 : dict) (sorted_sam : list string)
  (st : state) :
  inter_sam sam ID COUNT0 NR0 place0 sorted_sam = Ok st ->
  COUNT st = (COUNT0 + List.length (records sorted_sam))%nat
  /\ NR st = NR0 + Z.of_nat (List.length (records sorted_sam)).
Proof.
  unfold inter_sam. intro H. split.
  - rewrite (inter_sam_loop_count _ _ _ _ _ H). reflexivity.
  - rewrite (inter_sam_loop_NR _ _ _ _ _ H). reflexivity.
Qed.

Lemma counters_advance_by_record_count_witness :
  let sam := ["@HD"; Sample.q10; Sample.unmapped; Sample.q30] in
  match inter_sam sam 6 1 0 [] sam with
  | Ok st => COUNT st = (1 + 3)%nat /\ NR st = 0 + 3
  | Raise _ => False
  end.
Proof.
  intro sam.
  destruct (inter_sam sam 6 1 0 [] sam) as [st | e] eqn:H.
  - exact (counters_advance_by_record_count sam 6 1 0 [] sam st H).
  - vm_compute in H. discriminate H.
Defined.

(** Started on an empty table, a run that does not raise leaves a table
    whose keys are pairwise different. *)
Theorem table_keys_are_distinct (sam : list string) (ID : Z) (COUNT0 : nat)
  (NR0 : Z) (sorted_sam : list string) (st : state) :
  inter_sam sam ID COUNT0 NR0 [] sorted_sam = Ok st ->
  NoDup (map fst (place st)).
Proof.
  unfold inter_sam. intro H.
  refine (inter_sam_loop_keys_distinct _ _ _ _ _ _ H).
  simpl. constructor.
Qed.

Lemma table_keys_are_distinct_witness :
  let sam := [Sample.q10; Sample.q50_other; Sample.q30] in
  match inter_sam sam 6 1 0 [] sam with
  | Ok st => NoDup (map fst (place st))
  | Raise _ => False
  end.
Proof.
  intro sam.
  destruct (inter_sam sam 6 1 0 [] sam) as [st | e] eqn:H.
  - exact (table_keys_are_distinct sam 6 1 0 sam st H).
  - vm_compute in H. discriminate H.
Defined.

Lemma replace_loop_shape (k : key) (v : string) (d : dict) :
  replace_loop k v d = d
  \/ exists k' v' t, d = (k', v') :: t /\ replace_loop k v d = (k', v) :: t.
Proof.
  unfold replace_loop. destruct d as [| [k' v'] t]; [left; reflexivity |].
  destruct (key_eqb k' k) eqn:Hk; [| left; reflexivity].
  right. exists k', v', t. split; [reflexivity |].
  simpl. rewrite Hk. reflexivity.
Qed.

Lemma inter_sam_line_entries (sam : list string) (ID : Z) (st st' : state)
  (raw : string) :
  inter_sam_line sam ID st raw = Ok st' ->
  (forall i e, (1 <= i)%nat ->
     nth_error (place st) i = Some e -> nth_error (place st') i = Some e)
  /\ (forall k v, nth_error (place st) 0 = Some (k, v) ->
        exists v', nth_error (place st') 0 = Some (k, v')).
Proof.
  intro H. apply inter_sam_line_cases in H.
  destruct H as [-> | [r [c [_ [_ [Heq | [Habs Heq]]]]]]].
  - split; [auto |]. intros k v Hk. exists v. exact Hk.
  - rewrite Heq.
    destruct (replace_loop_shape (val_of r) raw (place st))
      as [-> | [k' [v' [t [Hd ->]]]]].
    + split; [auto |]. intros k v Hk. exists v. exact Hk.
    + rewrite Hd. split.
      * intros i e Hi. destruct i as [| i]; [lia | auto].
      * intros k v [= <- _]. exists raw. reflexivity.
  - rewrite Heq, (dict_set_absent _ _ _ Habs).
    assert (Hkeep : forall i e, nth_error (place st) i = Some e ->
                      nth_error (place st ++ [(val_of r, raw)]) i = Some e).
    { intros i e Hi. rewrite nth_error_app1; [exact Hi |].
      apply nth_error_Some. congruence. }
    split.
    + intros i e _ Hi. apply Hkeep. exact Hi.
    + intros k v Hk. exists v. apply Hkeep. exact Hk.
Qed.

(** Entries never leave the table and never move.  From the second place on
    an entry is never changed either: only the line stored under the first
    key of the table can be replaced. *)
Theorem only_first_entry_is_ever_replaced (sam : list string) (ID : Z)
  (lines : list string) :
  forall st st',
    inter_sam_loop sam ID st lines = Ok st' ->
    (forall i e, (1 <= i)%nat ->
       nth_error (place st) i = Some e -> nth_error (place st') i = Some e)
    /\ (forall k v, nth_error (place st) 0 = Some (k, v) ->
          exists v', nth_error (place st') 0 = Some (k, v')).
Proof.
  induction lines as [| raw rest IH]; intros st st' H.
  - simpl in H. injection H as <-. split; [auto |].
    intros k v Hk. exists v. exact Hk.
  - simpl in H. apply bind_ok in H. destruct H as [st1 [H1 H]].
    destruct (inter_sam_line_entries _ _ _ _ _ H1) as [Hrest1 Hfirst1].
    destruct (IH _ _ H) as [Hrest Hfirst].
    split.
    + intros i e Hi He. apply Hrest; [exact Hi |]. apply Hrest1; assumption.
    + intros k v Hk. destruct (Hfirst1 k v Hk) as [v1 Hv1].
      exact (Hfirst k v1 Hv1).
Qed.

Lemma only_first_entry_is_ever_replaced_witness :
  let sam := [Sample.q10; Sample.low_other; Sample.q50_other; Sample.q30] in
  let st := {| COUNT := 3; NR := 2;
               place := [(("AAAAAA", 100, "+"), Sample.q10);
                         (("CCCCCC", 100, "+"), Sample.low_other)];
               bestScore := Some 10 |} in
  match inter_sam_loop sam 6 st [Sample.q50_other; Sample.q30] with
  | Ok st' =>
      nth_error (place st') 1 = Some (("CCCCCC", 100, "+"), Sample.low_other)
      /\ exists v', nth_error (place st') 0 = Some (("AAAAAA", 100, "+"), v')
  | Raise _ => False
  end.
Proof.
  intros sam st.
  destruct (inter_sam_loop sam 6 st [Sample.q50_other; Sample.q30])
    as [st' | e] eqn:H.
  - destruct (only_first_entry_is_ever_replaced sam 6 _ st st' H)
      as [Hrest Hfirst].
    split.
    + apply Hrest; [lia | reflexivity].
    + apply (Hfirst _ Sample.q10). reflexivity.
  - vm_compute in H. discriminate H.
Defined.

Lemma inter_sam_line_values (sam : list string) (ID : Z) (st st' : state)
  (raw x : string) :
  inter_sam_line sam ID st raw = Ok st' ->
  In x (dict_values (place st')) ->
  In x (dict_values (place st)) \/ In x (records [raw]).
Proof.
  intros H Hx. unfold records. simpl filter.
  destruct (Py.startswith_at raw) eqn:Hhead.
  - unfold inter_sam_line in H. rewrite Hhead in H. injection H as <-.
    left. exact Hx.
  - simpl. apply inter_sam_line_cases in H.
    destruct H as [Heq | [r [c [_ [_ [Heq | [_ Heq]]]]]]]; rewrite Heq in Hx.
    + left. exact Hx.
    + apply replace_loop_values in Hx. destruct Hx as [-> | Hx]; auto.
    + apply dict_set_values in Hx. destruct Hx as [-> | Hx]; auto.
Qed.

Lemma inter_sam_loop_values (sam : list string) (ID : Z)
  (lines : list string) (x : string) :
  forall st st',
    inter_sam_loop sam ID st lines = Ok st' ->
    In x (dict_values (place st')) ->
    In x (dict_values (place st)) \/ In x (records lines).
Proof.
  induction lines as [| raw rest IH]; intros st st' H Hx.
  - simpl in H. injection H as <-. left. exact Hx.
  - simpl in H. apply bind_ok in H. destruct H as [st1 [H1 H]].
    change (raw :: rest) with ([raw] ++ rest)%list.
    unfold records. rewrite filter_app. fold (records [raw]) (records rest).
    destruct (IH _ _ H Hx) as [Hin | Hin].
    + destruct (inter_sam_line_values _ _ _ _ _ _ H1 Hin) as [H0 | H0].
      * left. exact H0.
      * right. apply in_or_app. left. exact H0.
    + right. apply in_or_app. right. exact Hin.
Qed.

(** Every line written out is a non-header line of the file iterated, and
    one that [bit_check] finds mapped and primary: the run never writes a
    header line or a line it did not read. *)
Theorem output_lines_are_mapped_records (sam : list string) (ID : Z)
  (sorted_sam out : list string) :
  dedup sam ID sorted_sam = Ok out ->
  forall x, In x out -> In x (records sorted_sam) /\ mapped_primary x.
Proof.
  unfold dedup, inter_sam. intro H.
  apply bind_ok in H. destruct H as [st [Hloop H]]. injection H as <-.
  intros x Hx. split.
  - destruct (inter_sam_loop_values _ _ _ _ _ _ Hloop Hx) as [[] | Hin].
    exact Hin.
  - refine (inter_sam_loop_mapped _ _ _ _ _ _ Hloop x Hx).
    simpl. intros y [].
Qed.

Lemma output_lines_are_mapped_records_witness :
  let sam := ["@HD"; Sample.q10; Sample.unmapped; Sample.q50_other] in
  dedup sam 6 sam = Ok [Sample.q10; Sample.q50_other]
  /\ In Sample.q50_other (records sam)
  /\ mapped_primary Sample.q50_other.
Proof.
  intro sam.
  assert (H : dedup sam 6 sam = Ok [Sample.q10; Sample.q50_other])
    by (vm_compute; reflexivity).
  split; [exact H |].
  apply (output_lines_are_mapped_records sam 6 sam _ H).
  simpl. right. left. reflexivity.
Defined.

Lemma dict_set_length (k : key) (v : string) (d : dict) :
  (List.length (dict_set k v d) <= S (List.length d))%nat.
Proof.
  induction d as [| [k' v'] d IH]; simpl; [lia |].
  destruct (key_eqb k' k); simpl; lia.
Qed.

Lemma inter_sam_line_length (sam : list string) (ID : Z) (st st' : state)
  (raw : string) :
  inter_sam_line sam ID st raw = Ok st' ->
  (List.length (place st')
   <= List.length (place st) + List.length (records [raw]))%nat.
Proof.
  intro H. unfold records. simpl filter.
  destruct (Py.startswith_at raw) eqn:Hhead.
  - unfold inter_sam_line in H. rewrite Hhead in H. injection H as <-.
    simpl. lia.
  - simpl. apply inter_sam_line_cases in H.
    destruct H as [-> | [r [c [_ [_ [-> | [_ ->]]]]]]].
    + lia.
    + rewrite <- (length_map fst (replace_loop _ _ _)), replace_loop_keys,
        length_map. lia.
    + pose proof (dict_set_length (val_of r) raw (place st)). lia.
Qed.

Lemma inter_sam_loop_length (sam : list string) (ID : Z)
  (lines : list string) :
  forall st st',
    inter_sam_loop sam ID st lines = Ok st' ->
    (List.length (place st')
     <= List.length (place st) + List.length (records lines))%nat.
Proof.
  induction lines as [| raw rest IH]; intros st st' H.
  - simpl in H. injection H as <-. simpl. lia.
  - simpl in H. apply bind_ok in H. destruct H as [st1 [H1 H]].
    pose proof (inter_sam_line_length _ _ _ _ _ H1) as L1.
    pose proof (IH _ _ H) as L2.
    change (raw :: rest) with ([raw] ++ rest)%list.
    unfold records in *. rewrite filter_app, length_app. lia.
Qed.

(** The run writes at most as many lines as the file iterated has non-header
    lines. *)
Theorem output_no_longer_than_records (sam : list string) (ID : Z)
  (sorted_sam out : list string) :
  dedup sam ID sorted_sam = Ok out ->
  (List.length out <= List.length (records sorted_sam))%nat.
Proof.
  unfold dedup, inter_sam. intro H.
  apply bind_ok in H. destruct H as [st [Hloop H]]. injection H as <-.
  pose proof (inter_sam_loop_length _ _ _ _ _ Hloop) as L.
  unfold dict_values. rewrite length_map. simpl in L. exact L.
Qed.

Lemma output_no_longer_than_records_witness :
  let sam := ["@HD"; Sample.q10; Sample.unmapped; Sample.q30] in
  dedup sam 6 sam = Ok [Sample.q30]
  /\ (List.length [Sample.q30] <= List.length (records sam))%nat.
Proof.
  intro sam.
  assert (H : dedup sam 6 sam = Ok [Sample.q30]) by (vm_compute; reflexivity).
  split; [exact H |].
  exact (output_no_longer_than_records sam 6 sam _ H).
Defined.

(** ** Further properties of the molecule id *)

Lemma grep_o_matches (ID : Z) (name m : string) :
  In m (Sh.grep_o ID name) ->
  In m (substrings name)
  /\ all_in_class m = true
  /\ ID <= Z.of_nat (String.length m)
  /\ 1 <= Z.of_nat (String.length m).
Proof.
  unfold Sh.grep_o.
  destruct ((ID <? 0) || (32767 <? ID)); [contradiction |].
  intro H. apply filter_In in H. destruct H as [Hin Hlong].
  destruct (pieces_are_runs _ _ Hin) as [Hsub Hall].
  unfold Sh.long_enough in Hlong. apply andb_true_iff in Hlong.
  destruct Hlong as [H1 H2]. apply Z.leb_le in H1, H2. auto.
Qed.

Lemma string_app_assoc (a b c : string) :
  ((a ++ b) ++ c)%string = (a ++ (b ++ c))%string.
Proof.
  induction a as [| x a IH]; simpl; [reflexivity |]. rewrite IH. reflexivity.
Qed.

Lemma list_ascii_app (a b : string) :
  list_ascii_of_string (a ++ b)
  = (list_ascii_of_string a ++ list_ascii_of_string b)%list.
Proof.
  induction a as [| c a IH]; simpl; [reflexivity |]. rewrite IH. reflexivity.
Qed.

Lemma class_not_nl (c : ascii) :
  Sh.in_class c = true -> Ascii.eqb c Py.nl = false.
Proof.
  destruct (Ascii.eqb c Py.nl) eqn:Hnl; [| reflexivity].
  apply Ascii.eqb_eq in Hnl. subst c. vm_compute. discriminate.
Qed.

Lemma run_class_ends (m : string) :
  all_in_class m = true ->
  1 <= Z.of_nat (String.length m) ->
  class_ends (list_ascii_of_string m).
Proof.
  unfold all_in_class. intros Hall Hlen.
  assert (Hne : list_ascii_of_string m <> []).
  { destruct m; simpl in *; [lia | discriminate]. }
  set (l := list_ascii_of_string m) in *. clearbody l. clear Hlen.
  rewrite forallb_forall in Hall.
  split.
  - destruct l as [| c t]; [contradiction |].
    exists c, t. split; [reflexivity | apply Hall; left; reflexivity].
  - destruct (rev l) as [| c t] eqn:Hrev.
    + apply (f_equal (@rev ascii)) in Hrev. rewrite rev_involutive in Hrev.
      contradiction.
    + exists c, t. split; [reflexivity |].
      apply Hall. apply in_rev. rewrite Hrev. left. reflexivity.
Qed.

Lemma class_ends_join (a b : list ascii) (sep : list ascii) :
  class_ends a -> class_ends b -> class_ends (a ++ sep ++ b).
Proof.
  intros [[c [t [-> Hc]]] _] [_ [d [u [Hrev Hd]]]]. split.
  - exists c, (t ++ sep ++ b)%list. split; [reflexivity | exact Hc].
  - rewrite !rev_app_distr, Hrev. simpl.
    eexists d, _. split; [reflexivity | exact Hd].
Qed.

Lemma strip_nl_class_ends (s : string) :
  class_ends (list_ascii_of_string s) ->
  Py.strip_nl (s ++ String Py.nl EmptyString) = s.
Proof.
  intros [[c [t [Hl Hc]]] [d [u [Hrev Hd]]]].
  unfold Py.strip_nl. rewrite list_ascii_app, Hl. simpl.
  rewrite (class_not_nl _ Hc).
  change (c :: (t ++ [Py.nl])%list) with ((c :: t) ++ [Py.nl])%list.
  rewrite <- Hl, rev_app_distr. simpl.
  rewrite Hrev. simpl. rewrite (class_not_nl _ Hd).
  rewrite <- Hrev, rev_involutive. apply string_of_list_ascii_of_string.
Qed.

Lemma joined_matches (ms : list string) (m : string) :
  (forall x, In x (m :: ms) ->
     all_in_class x = true /\ 1 <= Z.of_nat (String.length x)) ->
  String.concat EmptyString
    (map (fun x => x ++ String Py.nl EmptyString)%string (m :: ms))
  = (String.concat (String Py.nl EmptyString) (m :: ms)
       ++ String Py.nl EmptyString)%string
  /\ class_ends
       (list_ascii_of_string
          (String.concat (String Py.nl EmptyString) (m :: ms))).
Proof.
  revert m. induction ms as [| m' ms IH]; intros m Hall.
  - simpl. split; [reflexivity |].
    destruct (Hall m (or_introl eq_refl)) as [H1 H2].
    exact (run_class_ends _ H1 H2).
  - destruct (IH m' (fun x Hx => Hall x (or_intror Hx))) as [Heq Hends].
    destruct (Hall m (or_introl eq_refl)) as [H1 H2].
    split.
    + change (String.concat EmptyString
                (map (fun x => x ++ String Py.nl EmptyString)%string
                   (m :: m' :: ms)))
        with ((m ++ String Py.nl EmptyString) ++ EmptyString ++
              String.concat EmptyString
                (map (fun x => x ++ String Py.nl EmptyString)%string
                   (m' :: ms)))%string.
      rewrite Heq.
      change (String.concat (String Py.nl EmptyString) (m :: m' :: ms))
        with (m ++ String Py.nl EmptyString ++
              String.concat (String Py.nl EmptyString) (m' :: ms))%string.
      rewrite !string_app_assoc. reflexivity.
    + change (String.concat (String Py.nl EmptyString) (m :: m' :: ms))
        with (m ++ String Py.nl EmptyString ++
              String.concat (String Py.nl EmptyString) (m' :: ms))%string.
      rewrite !list_ascii_app.
      apply class_ends_join; [exact (run_class_ends _ H1 H2) | exact Hends].
Qed.

Lemma barcode_get_value (sam : list string) (ID : Z) (COUNT : nat)
  (name : string) :
  Sh.sed_n_p COUNT (Sh.names sam) = Some name ->
  barcode_get sam ID COUNT
  = (String.concat (String Py.nl EmptyString) (Sh.grep_o ID name), S COUNT).
Proof.
  intro Hname. unfold barcode_get, Sh.check_output. rewrite Hname.
  destruct (Sh.grep_o ID name) as [| m ms] eqn:Hg; [reflexivity |].
  f_equal.
  assert (Hall : forall x, In x (m :: ms) ->
                   all_in_class x = true /\ 1 <= Z.of_nat (String.length x)).
  { intros x Hx. rewrite <- Hg in Hx.
    destruct (grep_o_matches _ _ _ Hx) as [_ [H1 [_ H2]]]. auto. }
  destruct (joined_matches ms m Hall) as [Heq Hends].
  rewrite Heq. apply strip_nl_class_ends. exact Hends.
Qed.

Lemma prefix_within_first_piece (s x : string) :
  In x (prefixes s) ->
  all_in_class x = true ->
  exists r rs,
    Sh.pieces s = r :: rs /\ (String.length x <= String.length r)%nat.
Proof.
  revert x. induction s as [| c s IH]; intros x Hx Hall.
  - simpl in Hx. destruct Hx as [<- | []].
    exists EmptyString, []. split; [reflexivity | simpl; lia].
  - simpl in Hx. destruct Hx as [<- | Hx].
    + destruct (pieces_shape (String c s)) as [r [rs [Hp _]]].
      exists r, rs. split; [exact Hp | simpl; lia].
    + apply in_map_iff in Hx. destruct Hx as [x' [<- Hx']].
      unfold all_in_class in Hall. simpl in Hall.
      apply andb_true_iff in Hall. destruct Hall as [Hc Hall'].
      destruct (IH x' Hx' Hall') as [r [rs [Hp Hlen]]].
      simpl Sh.pieces. rewrite Hc, Hp.
      exists (String c r), rs. split; [reflexivity | simpl; lia].
Qed.

Lemma run_within_some_piece (s x : string) :
  In x (substrings s) ->
  all_in_class x = true ->
  exists r,
    In r (Sh.pieces s) /\ (String.length x <= String.length r)%nat.
Proof.
  revert x. induction s as [| c s IH]; intros x Hx Hall.
  - rewrite substrings_unfold in Hx. rewrite app_nil_r in Hx.
    destruct (prefix_within_first_piece _ _ Hx Hall) as [r [rs [Hp Hlen]]].
    exists r. split; [rewrite Hp; left; reflexivity | exact Hlen].
  - rewrite substrings_unfold in Hx. apply in_app_or in Hx.
    destruct Hx as [Hx | Hx].
    + destruct (prefix_within_first_piece _ _ Hx Hall) as [r [rs [Hp Hlen]]].
      exists r. split; [rewrite Hp; left; reflexivity | exact Hlen].
    + destruct (IH x Hx Hall) as [r [Hr Hlen]].
      simpl Sh.pieces.
      destruct (Sh.in_class c).
      * destruct (Sh.pieces s) as [| r0 rs]; [contradiction |].
        destruct Hr as [<- | Hr].
        -- exists (String c r0). split; [left; reflexivity | simpl; lia].
        -- exists r. split; [right; exact Hr | exact Hlen].
      * exists r. split; [right; exact Hr | exact Hlen].
Qed.

Lemma grep_o_finds_run (ID : Z) (name : string) :
  1 <= ID <= 32767 ->
  has_run ID name = true ->
  exists m ms, Sh.grep_o ID name = m :: ms.
Proof.
  intros HID Hrun. unfold has_run in Hrun.
  apply existsb_exists in Hrun. destruct Hrun as [x [Hx Hok]].
  apply andb_true_iff in Hok. destruct Hok as [Hall Hlen].
  apply Z.leb_le in Hlen.
  destruct (run_within_some_piece _ _ Hx Hall) as [r [Hr Hle]].
  unfold Sh.grep_o.
  assert (Hrange : (ID <? 0) || (32767 <? ID) = false).
  { apply orb_false_iff. split; apply Z.ltb_ge; lia. }
  rewrite Hrange.
  assert (Hin : In r (filter (Sh.long_enough ID) (Sh.pieces name))).
  { apply filter_In. split; [exact Hr |].
    unfold Sh.long_enough. apply andb_true_iff.
    split; apply Z.leb_le; lia. }
  destruct (filter (Sh.long_enough ID) (Sh.pieces name)) as [| m ms];
    [contradiction |].
  exists m, ms. reflexivity.
Qed.

(** ** Further properties of the soft-clip resolver *)

Lemma int_never_index_error (s : string) : Py.int s <> Raise IndexError.
Proof.
  unfold Py.int. destruct (Py.int_literal s); discriminate.
Qed.

Lemma int_digits_bound (n : nat) :
  forall cs acc v,
    (List.length cs <= n)%nat ->
    0 <= acc ->
    Py.int_digits acc cs = Some v ->
    acc <= v < (acc + 1) * 10 ^ Z.of_nat (List.length cs).
Proof.
  induction n as [| n IH]; intros cs acc v Hlen Hacc H.
  - destruct cs; [| simpl in Hlen; lia].
    simpl in H. injection H as <-. simpl. lia.
  - destruct cs as [| c cs']; [simpl in H; injection H as <-; simpl; lia |].
    simpl in Hlen. simpl Py.int_digits in H.
    assert (Hpow : forall (x : ascii) (l : list ascii),
               10 ^ Z.of_nat (List.length (x :: l))
               = 10 * 10 ^ Z.of_nat (List.length l)).
    { intros x l. simpl List.length. rewrite Nat2Z.inj_succ.
      apply Z.pow_succ_r. lia. }
    destruct (Py.isdigit c) eqn:Hc.
    + destruct (isdigit_facts c Hc) as [_ [_ [_ [_ Hd]]]].
      assert (Hl : (List.length cs' <= n)%nat) by lia.
      assert (Ha : 0 <= 10 * acc + Py.digit c) by lia.
      pose proof (IH cs' _ v Hl Ha H) as [Hlo Hhi].
      rewrite Hpow.
      assert (Hp : 0 < 10 ^ Z.of_nat (List.length cs'))
        by (apply Z.pow_pos_nonneg; lia).
      split; [lia | nia].
    + destruct (Ascii.eqb c "_"); [| discriminate H].
      destruct cs' as [| d cs'']; [discriminate H |].
      destruct (Py.isdigit d) eqn:Hdd; [| discriminate H].
      destruct (isdigit_facts d Hdd) as [_ [_ [_ [_ Hd]]]].
      simpl in Hlen.
      assert (Hl : (List.length cs'' <= n)%nat) by lia.
      assert (Ha : 0 <= 10 * acc + Py.digit d) by lia.
      pose proof (IH cs'' _ v Hl Ha H) as [Hlo Hhi].
      rewrite !Hpow.
      assert (Hp : 0 < 10 ^ Z.of_nat (List.length cs''))
        by (apply Z.pow_pos_nonneg; lia).
      split; [lia | nia].
Qed.

Lemma int_body_bound (cs : list ascii) (v : Z) :
  Py.int_body cs = Some v -> 0 <= v < 10 ^ Z.of_nat (List.length cs).
Proof.
  destruct cs as [| c cs']; [discriminate |]. simpl Py.int_body.
  destruct (Py.isdigit c) eqn:Hc; [| discriminate].
  destruct (isdigit_facts c Hc) as [_ [_ [_ [_ Hd]]]].
  intro H.
  assert (Ha : 0 <= Py.digit c) by lia.
  pose proof (int_digits_bound _ cs' _ v (Nat.le_refl _) Ha H) as [Hlo Hhi].
  simpl List.length. rewrite Nat2Z.inj_succ, Z.pow_succ_r by lia.
  assert (Hp : 0 < 10 ^ Z.of_nat (List.length cs'))
    by (apply Z.pow_pos_nonneg; lia).
  split; [lia | nia].
Qed.

Lemma lstrip_length (l : list ascii) :
  (List.length (Py.lstrip l) <= List.length l)%nat.
Proof.
  induction l as [| c l IH]; simpl; [lia |].
  destruct (Py.isspace c); simpl; lia.
Qed.

Lemma list_ascii_length (s : string) :
  List.length (list_ascii_of_string s) = String.length s.
Proof.
  induction s as [| c s IH]; simpl; [reflexivity | rewrite IH; reflexivity].
Qed.

(** [int] never yields a number with more digits than the text has
    characters. *)
Lemma int_literal_bound (s : string) (v : Z) :
  Py.int_literal s = Some v ->
  - 10 ^ Z.of_nat (String.length s) < v < 10 ^ Z.of_nat (String.length s).
Proof.
  unfold Py.int_literal.
  set (cs := rev (Py.lstrip (rev (Py.lstrip (list_ascii_of_string s))))).
  assert (Hlen : (List.length cs <= String.length s)%nat).
  { unfold cs. rewrite length_rev.
    pose proof (lstrip_length (rev (Py.lstrip (list_ascii_of_string s)))) as H1.
    rewrite length_rev in H1.
    pose proof (lstrip_length (list_ascii_of_string s)) as H2.
    rewrite list_ascii_length in H2. lia. }
  clearbody cs.
  assert (Hmono : forall k : nat, (k <= String.length s)%nat ->
                    10 ^ Z.of_nat k <= 10 ^ Z.of_nat (String.length s)).
  { intros k Hk. apply Z.pow_le_mono_r; lia. }
  destruct cs as [| c ds]; [discriminate |].
  simpl in Hlen.
  assert (Hds : 10 ^ Z.of_nat (List.length ds)
                <= 10 ^ Z.of_nat (String.length s)) by (apply Hmono; lia).
  assert (Hcs : 10 ^ Z.of_nat (List.length (c :: ds))
                <= 10 ^ Z.of_nat (String.length s))
    by (apply Hmono; simpl; lia).
  destruct (Ascii.eqb c "+").
  - intro H. apply int_body_bound in H. lia.
  - destruct (Ascii.eqb c "-").
    + destruct (Py.int_body ds) as [w |] eqn:Hw; [| discriminate].
      simpl. intros [= <-]. apply int_body_bound in Hw. lia.
    + intro H. apply int_body_bound in H. lia.
Qed.

Lemma soft_check_at_most_99 (align : string) (v : Z) :
  soft_check align = Ok v -> v <= 99.
Proof.
  unfold soft_check, Py.char_at, Py.int.
  destruct align as [| c0 [| c1 rest]]; try discriminate.
  simpl String.get. cbn [bind].
  destruct (is_S c1); cbn [bind].
  - destruct (Py.int_literal (String c0 EmptyString)) as [w |] eqn:Hw;
      [| discriminate].
    intros [= <-]. apply int_literal_bound in Hw. simpl in Hw. lia.
  - destruct rest as [| c2 rest']; [discriminate |].
    simpl String.get. cbn [bind].
    destruct (is_S c2); [| intros [= <-]; lia].
    simpl substring.
    destruct (Py.int_literal (String c0 (String c1 EmptyString)))
      as [w |] eqn:Hw; [| discriminate].
    intros [= <-]. apply int_literal_bound in Hw. simpl in Hw. lia.
Qed.

Lemma item_ok {A : Type} (l : list A) (n : nat) (a : A) :
  Py.item l n = Ok a -> nth_error l n = Some a.
Proof.
  unfold Py.item. destruct (nth_error l n); [intros [= <-]; reflexivity |].
  discriminate.
Qed.

Lemma int_ok (s : string) (z : Z) :
  Py.int s = Ok z -> Py.int_literal s = Some z.
Proof.
  unfold Py.int. destruct (Py.int_literal s); [intros [= <-]; reflexivity |].
  discriminate.
Qed.

(** The adjusted start is never to the right of the position read from
    field 3 and never more than 99 to its left, whatever the descriptor:
    only a clip of one or two digits is ever subtracted. *)
Theorem adjusted_start_within_99_of_position (line f3 : string) (p a : Z) :
  nth_error (Py.split_tab line) 3 = Some f3 ->
  Py.int_literal f3 = Some p ->
  start_pos line = Ok a ->
  p - 99 <= a <= p.
Proof.
  intros H3 Hp H. unfold start_pos in H.
  apply bind_ok in H. destruct H as [f3' [Hf3 H]].
  apply item_ok in Hf3. rewrite H3 in Hf3. injection Hf3 as <-.
  apply bind_ok in H. destruct H as [p' [Hp' H]].
  apply int_ok in Hp'. rewrite Hp in Hp'. injection Hp' as <-.
  apply bind_ok in H. destruct H as [align [_ H]].
  apply bind_ok in H. destruct H as [soft [Hsoft H]].
  apply soft_check_at_most_99 in Hsoft.
  injection H as <-.
  destruct (0 <? soft) eqn:Hpos.
  - apply Z.ltb_lt in Hpos. lia.
  - lia.
Qed.

Lemma adjusted_start_within_99_of_position_witness :
  start_pos Sample.clip100 = Ok 50 /\ 50 - 99 <= 50 <= 50.
Proof.
  assert (H : start_pos Sample.clip100 = Ok 50) by (vm_compute; reflexivity).
  split; [exact H |].
  exact (adjusted_start_within_99_of_position Sample.clip100 "50" 50 50
           eq_refl eq_refl H).
Defined.

(** ** When classification and the run succeed *)

Lemma classifiable_fields (line : string) :
  classifiable line = true ->
  exists f1 flag f3 p align v qual,
    nth_error (Py.split_tab line) 1 = Some f1
    /\ Py.int_literal f1 = Some flag
    /\ nth_error (Py.split_tab line) 3 = Some f3
    /\ Py.int_literal f3 = Some p
    /\ nth_error (Py.split_tab line) 5 = Some align
    /\ soft_check align = Ok v
    /\ nth_error (Py.split_tab line) 10 = Some qual.
Proof.
  unfold classifiable, malformed, not_int, soft_ok.
  intro H. apply andb_true_iff in H. destruct H as [Hm H5].
  apply negb_true_iff in Hm.
  apply orb_false_iff in Hm. destruct Hm as [Hm H3].
  apply orb_false_iff in Hm. destruct Hm as [Hlen H1].
  apply Nat.ltb_ge in Hlen.
  destruct (nth_error (Py.split_tab line) 1) as [f1 |]; [| discriminate].
  destruct (Py.int_literal f1) as [flag |] eqn:Hflag; [| discriminate].
  destruct (nth_error (Py.split_tab line) 3) as [f3 |]; [| discriminate].
  destruct (Py.int_literal f3) as [p |] eqn:Hp; [| discriminate].
  destruct (nth_error (Py.split_tab line) 5) as [align |]; [| discriminate].
  destruct (soft_check align) as [v |] eqn:Hv; [| discriminate].
  destruct (nth_error (Py.split_tab line) 10) as [qual |] eqn:H10.
  - exists f1, flag, f3, p, align, v, qual. auto 10.
  - apply nth_error_None in H10. lia.
Qed.

Lemma sam_info_classifiable (sam : list string) (ID : Z) (c : nat)
  (line : string) :
  classifiable line = true -> exists r, sam_info sam ID c line = Ok (r, S c).
Proof.
  intro H.
  destruct (classifiable_fields line H)
    as [f1 [flag [f3 [p [align [v [qual [H1 [Hf [H3 [Hp [H5 [Hv H10]]]]]]]]]]]]].
  unfold sam_info.
  rewrite (start_pos_fields _ _ _ _ _ H3 Hp H5 Hv). cbn [bind].
  unfold convert_phred, Py.item. rewrite H10. cbn [bind].
  rewrite (bit_check_flag _ _ _ H1 Hf).
  destruct qual; cbn [bind]; eexists; reflexivity.
Qed.

(** Classification returns exactly for the lines that have at least 11
    fields, an integer flag and position, and a descriptor that [soft_check]
    accepts; for every other line it raises. *)
Theorem sam_info_succeeds_iff (sam : list string) (ID : Z) (c : nat)
  (line : string) :
  (exists r, sam_info sam ID c line = Ok (r, S c))
  <-> classifiable line = true.
Proof.
  split; [| apply sam_info_classifiable].
  intros [r Hr].
  destruct (sam_info_ok _ _ _ _ _ _ Hr) as [_ [Hsp [Hq [Hb _]]]].
  unfold start_pos in Hsp.
  apply bind_ok in Hsp. destruct Hsp as [f3 [H3 Hsp]]. apply item_ok in H3.
  apply bind_ok in Hsp. destruct Hsp as [p [Hp Hsp]]. apply int_ok in Hp.
  apply bind_ok in Hsp. destruct Hsp as [align [H5 Hsp]]. apply item_ok in H5.
  apply bind_ok in Hsp. destruct Hsp as [v [Hv _]].
  unfold convert_phred in Hq.
  apply bind_ok in Hq. destruct Hq as [qual [H10 _]]. apply item_ok in H10.
  unfold bit_check in Hb.
  apply bind_ok in Hb. destruct Hb as [f1 [H1 Hb]]. apply item_ok in H1.
  apply bind_ok in Hb. destruct Hb as [flag [Hf _]]. apply int_ok in Hf.
  unfold classifiable, malformed, not_int, soft_ok.
  rewrite H1, Hf, H3, Hp, H5, Hv.
  assert (Hlen : (List.length (Py.split_tab line) <? 11)%nat = false).
  { apply Nat.ltb_ge.
    assert (Hsome : nth_error (Py.split_tab line) 10 <> None) by congruence.
    apply nth_error_Some in Hsome. lia. }
  rewrite Hlen. reflexivity.
Qed.

Lemma sam_info_succeeds_iff_witness :
  classifiable Sample.clip5 = true
  /\ (exists r, sam_info [Sample.clip5] 6 1 Sample.clip5 = Ok (r, 2%nat))
  /\ classifiable Sample.short_cigar = false.
Proof.
  split; [reflexivity |]. split; [| reflexivity].
  apply (proj2 (sam_info_succeeds_iff [Sample.clip5] 6 1 Sample.clip5)).
  reflexivity.
Defined.

Lemma inter_sam_line_well_formed (sam : list string) (ID : Z) (st : state)
  (raw : string) (b : Z) :
  classifiable raw = true ->
  has_quality raw = true ->
  bestScore st = Some b ->
  exists st' b', inter_sam_line sam ID st raw = Ok st'
                 /\ bestScore st' = Some b'.
Proof.
  intros Hc Hq Hb. unfold inter_sam_line.
  destruct (Py.startswith_at raw); [exists st, b; auto |].
  destruct (sam_info_classifiable sam ID (COUNT st) raw Hc) as [r Hr].
  rewrite Hr. cbn [bind fst snd].
  destruct (sam_info_ok _ _ _ _ _ _ Hr) as [_ [_ [Hconv _]]].
  unfold has_quality in Hq.
  destruct (nth_error (Py.split_tab raw) 10) as [[| ch rest] |] eqn:H10;
    try discriminate.
  rewrite (convert_phred_first_character _ _ _ H10) in Hconv.
  injection Hconv as Hconv. rewrite <- Hconv.
  destruct (ignored r); [eexists; exists b; split; [reflexivity | exact Hb] |].
  destruct (dict_has (val_of r) (place st)); rewrite ?Hb; cbn [bind Py.lt negb].
  - destruct (b <? Py.ord ch - 33);
      eexists; exists b; split; try reflexivity; exact Hb.
  - eexists; eexists; split; reflexivity.
Qed.

Lemma inter_sam_loop_well_formed (sam : list string) (ID : Z)
  (lines : list string) :
  (forall raw, In raw (records lines) ->
     classifiable raw = true /\ has_quality raw = true) ->
  forall st b,
    bestScore st = Some b ->
    exists st', inter_sam_loop sam ID st lines = Ok st'.
Proof.
  induction lines as [| raw rest IH]; intros Hall st b Hb.
  - exists st. reflexivity.
  - simpl inter_sam_loop.
    assert (Hrest : forall x, In x (records rest) ->
                      classifiable x = true /\ has_quality x = true).
    { intros x Hx. apply Hall. unfold records in *. simpl filter.
      destruct (negb (Py.startswith_at raw)); [right |]; exact Hx. }
    destruct (Py.startswith_at raw) eqn:Hhead.
    + unfold inter_sam_line. rewrite Hhead. cbn [bind].
      exact (IH Hrest st b Hb).
    + assert (Hraw : classifiable raw = true /\ has_quality raw = true).
      { apply Hall. unfold records. simpl filter. rewrite Hhead.
        left. reflexivity. }
      destruct Hraw as [Hc Hq].
      destruct (inter_sam_line_well_formed sam ID st raw b Hc Hq Hb)
        as [st' [b' [Hstep Hb']]].
      rewrite Hstep. cbn [bind]. exact (IH Hrest st' b' Hb').
Qed.

(** When every non-header line of the file iterated has at least 11 fields,
    an integer flag and position, a descriptor [soft_check] accepts and a
    quality string that is not empty, the run returns: no exception is
    raised, whatever the file read by the pipeline and whatever [ID]. *)
Theorem run_succeeds_on_well_formed_records (sam : list string) (ID : Z)
  (sorted_sam : list string) :
  (forall raw, In raw (records sorted_sam) ->
     classifiable raw = true /\ has_quality raw = true) ->
  exists out, dedup sam ID sorted_sam = Ok out.
Proof.
  intro Hall. unfold dedup, inter_sam.
  destruct (inter_sam_loop_well_formed sam ID sorted_sam Hall
              {| COUNT := 1; NR := 0; place := []; bestScore := Some 0 |}
              0 eq_refl) as [st Hst].
  rewrite Hst. cbn [bind]. eexists. reflexivity.
Qed.

Lemma run_succeeds_on_well_formed_records_witness :
  let sam := ["@HD"; Sample.q10; Sample.unmapped; Sample.clip5] in
  exists out, dedup sam 6 sam = Ok out.
Proof.
  intro sam.
  apply (run_succeeds_on_well_formed_records sam 6 sam).
  intros raw Hin. simpl in Hin.
  destruct Hin as [<- | [<- | [<- | []]]]; split; reflexivity.
Defined.

(** ** A missing quality score *)

(** An eligible record whose quality string is empty has the score [None].
    Inserted under a new key it leaves [bestScore] at [None]; and whenever
    the score of the record or [bestScore] is [None], an eligible record
    whose key is already in the table ends the run with [TypeError]. *)
Theorem missing_score_raises_on_next_duplicate (sam : list string) (ID : Z)
  (st : state) (raw : string) (r : sam_info_obj) (c : nat) :
  Py.startswith_at raw = false ->
  sam_info sam ID (COUNT st) raw = Ok (r, c) ->
  ignored r = false ->
  (nth_error (Py.split_tab raw) 10 = Some EmptyString ->
   self_qual_score r = None)
  /\ (dict_has (val_of r) (place st) = false ->
      exists st', inter_sam_line sam ID st raw = Ok st'
                  /\ bestScore st' = self_qual_score r)
  /\ (dict_has (val_of r) (place st) = true ->
      self_qual_score r = None \/ bestScore st = None ->
      inter_sam_line sam ID st raw = Raise TypeError).
Proof.
  intros Hhead Hr Hig.
  destruct (sam_info_ok _ _ _ _ _ _ Hr) as [_ [_ [Hconv _]]].
  split; [| split].
  - intro H10. unfold convert_phred, Py.item in Hconv. rewrite H10 in Hconv.
    cbn [bind] in Hconv. congruence.
  - intro Habs. unfold inter_sam_line.
    rewrite Hhead, Hr. cbn [bind fst snd]. rewrite Hig, Habs.
    cbn [bind negb]. eexists. split; reflexivity.
  - intros Hhas Hnone. unfold inter_sam_line.
    rewrite Hhead, Hr. cbn [bind fst snd]. rewrite Hig, Hhas.
    destruct Hnone as [Hn | Hn]; rewrite Hn.
    + destruct (bestScore st); reflexivity.
    + reflexivity.
Qed.

Lemma missing_score_raises_on_next_duplicate_witness :
  let sam := [Sample.q10; Sample.qual_empty] in
  let st := {| COUNT := 2; NR := 1;
               place := [(("AAAAAA", 100, "+"), Sample.q10)];
               bestScore := Some 10 |} in
  inter_sam_line sam 6 st Sample.qual_empty = Raise TypeError
  /\ main sam 6 = Raise TypeError.
Proof.
  intros sam st. split; [| vm_compute; reflexivity].
  assert (Hr : sam_info sam 6 (COUNT st) Sample.qual_empty
               = Ok ({| self_line := Sample.qual_empty;
                        self_start_pos := 100;
                        self_qual_score := None;
                        self_strand := ("+", Some EmptyString);
                        self_BC := "AAAAAA" |}, 3%nat))
    by (vm_compute; reflexivity).
  apply (proj2 (proj2 (missing_score_raises_on_next_duplicate
                         sam 6 st Sample.qual_empty _ _ eq_refl Hr eq_refl))).
  - reflexivity.
  - left. reflexivity.
Defined.

(** A record whose key is already in the table never adds an entry: the keys
    of the table and [bestScore] stay as they are. *)
Theorem duplicate_key_adds_no_entry (sam : list string) (ID : Z)
  (st st' : state) (raw : string) (r : sam_info_obj) (c : nat) :
  Py.startswith_at raw = false ->
  sam_info sam ID (COUNT st) raw = Ok (r, c) ->
  dict_has (val_of r) (place st) = true ->
  inter_sam_line sam ID st raw = Ok st' ->
  map fst (place st') = map fst (place st)
  /\ bestScore st' = bestScore st.
Proof.
  intros Hhead Hr Hhas. unfold inter_sam_line.
  rewrite Hhead, Hr. cbn [bind fst snd].
  destruct (ignored r); [intros [= <-]; auto |].
  rewrite Hhas. intro H. apply bind_ok in H. destruct H as [higher [_ H]].
  destruct higher; cbn [negb] in H; injection H as <-; simpl.
  - split; [apply replace_loop_keys | reflexivity].
  - auto.
Qed.

Lemma duplicate_key_adds_no_entry_witness :
  let sam := [Sample.q10; Sample.q30] in
  let st := {| COUNT := 2; NR := 1;
               place := [(("AAAAAA", 100, "+"), Sample.q10)];
               bestScore := Some 10 |} in
  match inter_sam_line sam 6 st Sample.q30 with
  | Ok st' => map fst (place st') = [("AAAAAA", 100, "+")]
              /\ bestScore st' = Some 10
  | Raise _ => False
  end.
Proof.
  intros sam st.
  assert (Hr : sam_info sam 6 (COUNT st) Sample.q30
               = Ok ({| self_line := Sample.q30;
                        self_start_pos := 100;
                        self_qual_score := Some 30;
                        self_strand := ("+", Some EmptyString);
                        self_BC := "AAAAAA" |}, 3%nat))
    by (vm_compute; reflexivity).
  destruct (inter_sam_line sam 6 st Sample.q30) as [st' | e] eqn:H.
  - exact (duplicate_key_adds_no_entry sam 6 st st' Sample.q30 _ _
             eq_refl Hr eq_refl H).
  - vm_compute in H. discriminate H.
Defined.

(** ** The name of the output file *)

Lemma split_char_first (sep : ascii) (stem : string) :
  forallb (fun c => negb (Ascii.eqb c sep)) (list_ascii_of_string stem) = true ->
  split_char sep stem = [stem]
  /\ forall rest,
       hd EmptyString (split_char sep (stem ++ String sep rest)) = stem.
Proof.
  induction stem as [| c stem IH]; simpl; intro H.
  - split; [reflexivity |]. intro rest. rewrite Ascii.eqb_refl. reflexivity.
  - apply andb_true_iff in H. destruct H as [Hc Hrest].
    apply negb_true_iff in Hc. rewrite Hc.
    destruct (IH Hrest) as [Hone Hhd]. split.
    + rewrite Hone. reflexivity.
    + intro rest. specialize (Hhd rest).
      destruct (split_char sep (stem ++ String sep rest)) as [| f fs];
        simpl in *; rewrite Hhd; reflexivity.
Qed.

(** The output file is named after the input name up to its first dot, not
    its last: [stem.rest] gives [stem_deduped.sam] whatever [rest] holds, and
    a name without a dot gets the suffix appended. *)
Theorem deduped_name_cuts_at_first_dot (stem rest : string) :
  no_dot stem = true ->
  deduped_name (stem ++ String "." rest) = (stem ++ "_deduped.sam")%string
  /\ deduped_name stem = (stem ++ "_deduped.sam")%string.
Proof.
  intro H. unfold no_dot in H. unfold deduped_name.
  destruct (split_char_first "." stem H) as [Hone Hhd].
  rewrite Hhd, Hone. split; reflexivity.
Qed.

Lemma deduped_name_cuts_at_first_dot_witness :
  deduped_name "run.v2/reads.sam" = "run_deduped.sam"
  /\ deduped_name "reads" = "reads_deduped.sam".
Proof.
  split.
  - exact (proj1 (deduped_name_cuts_at_first_dot "run" "v2/reads.sam" eq_refl)).
  - exact (proj2 (deduped_name_cuts_at_first_dot "reads" "" eq_refl)).
Defined.

(** ** The flag *)

Lemma land_pow2_eq (flag : Z) (n : Z) :
  0 <= n ->
  Z.land flag (2 ^ n) = 2 ^ n <-> Z.testbit flag n = true.
Proof.
  intro Hn. split.
  - intro H.
    assert (Hb : Z.testbit (Z.land flag (2 ^ n)) n = true)
      by (rewrite H; apply Z.pow2_bits_true; exact Hn).
    rewrite Z.land_spec in Hb. apply andb_true_iff in Hb. tauto.
  - intro H. apply Z.bits_inj'. intros m Hm.
    rewrite Z.land_spec, (Z.pow2_bits_eqb n m Hn).
    destruct (Z.eqb_spec n m) as [<- | Hne].
    + rewrite H. reflexivity.
    + apply andb_false_r.
Qed.

(** For a flag field that holds an integer, [bit_check] returns; the strand
    is ["-"] exactly when bit 4 of the flag (value 16) is set and ["+"]
    otherwise, and [umap] is [None] exactly when bit 2 (value 4) or bit 8
    (value 256) is set, negative flags included. *)
Theorem bit_check_decodes_flag_bits (line f1 : string) (flag : Z) :
  nth_error (Py.split_tab line) 1 = Some f1 ->
  Py.int_literal f1 = Some flag ->
  exists strand umap,
    bit_check line = Ok (strand, umap)
    /\ (strand = "-" <-> Z.testbit flag 4 = true)
    /\ (strand = "+" <-> Z.testbit flag 4 = false)
    /\ (umap = None <-> Z.testbit flag 2 = true \/ Z.testbit flag 8 = true)
    /\ (umap = Some EmptyString
        <-> Z.testbit flag 2 = false /\ Z.testbit flag 8 = false).
Proof.
  intros H1 Hf. rewrite (bit_check_flag _ _ _ H1 Hf).
  eexists. eexists. split; [reflexivity |].
  assert (B : forall n, 0 <= n ->
                (Z.land flag (2 ^ n) =? 2 ^ n) = Z.testbit flag n).
  { intros n Hn. destruct (Z.testbit flag n) eqn:Hb.
    - apply Z.eqb_eq. apply land_pow2_eq; assumption.
    - apply Z.eqb_neq. intro H. apply land_pow2_eq in H; [congruence | exact Hn]. }
  pose proof (B 4 ltac:(lia)) as B16.
  pose proof (B 2 ltac:(lia)) as B4.
  pose proof (B 8 ltac:(lia)) as B256.
  change (2 ^ 4) with 16 in B16. change (2 ^ 2) with 4 in B4.
  change (2 ^ 8) with 256 in B256.
  rewrite B16, B4, B256.
  destruct (Z.testbit flag 4); destruct (Z.testbit flag 2);
    destruct (Z.testbit flag 8); simpl;
    repeat split; intros; try reflexivity; try discriminate;
    try (intuition discriminate).
Qed.

Lemma bit_check_decodes_flag_bits_witness :
  exists strand umap,
    bit_check (Sample.sam_line "r4:AAAAAA" "272" "100" "10M" "IIIIIIIIII")
    = Ok (strand, umap)
    /\ (strand = "-" <-> Z.testbit 272 4 = true)
    /\ (strand = "+" <-> Z.testbit 272 4 = false)
    /\ (umap = None <-> Z.testbit 272 2 = true \/ Z.testbit 272 8 = true)
    /\ (umap = Some EmptyString
        <-> Z.testbit 272 2 = false /\ Z.testbit 272 8 = false).
Proof.
  exact (bit_check_decodes_flag_bits
           (Sample.sam_line "r4:AAAAAA" "272" "100" "10M" "IIIIIIIIII")
           "272" 272 eq_refl eq_refl).
Defined.

(** ** Two duplicates at the head of the table *)

(** Two eligible records with the same key that meet an empty table, one
    right after the other: the table ends with one entry under that key,
    holding the second line when its score (that of its first quality
    character) is strictly higher than the first's, and the first line
    otherwise. *)
Theorem first_pair_keeps_higher_score (sam : list string) (ID : Z)
  (st : state) (raw1 raw2 : string) (r1 r2 : sam_info_obj) (c1 c2 : nat)
  (q1 q2 : Z) :
  place st = [] ->
  Py.startswith_at raw1 = false ->
  Py.startswith_at raw2 = false ->
  sam_info sam ID (COUNT st) raw1 = Ok (r1, c1) ->
  sam_info sam ID c1 raw2 = Ok (r2, c2) ->
  ignored r1 = false ->
  ignored r2 = false ->
  val_of r2 = val_of r1 ->
  self_qual_score r1 = Some q1 ->
  self_qual_score r2 = Some q2 ->
  exists st',
    inter_sam_loop sam ID st [raw1; raw2] = Ok st'
    /\ place st' = [(val_of r1, if q1 <? q2 then raw2 else raw1)]
    /\ bestScore st' = Some q1.
Proof.
  intros Hempty Hh1 Hh2 Hr1 Hr2 Hig1 Hig2 Hkey Hq1 Hq2.
  destruct (sam_info_ok _ _ _ _ _ _ Hr1) as [Hl1 _].
  destruct (sam_info_ok _ _ _ _ _ _ Hr2) as [Hl2 _].
  simpl inter_sam_loop. unfold inter_sam_line at 1.
  rewrite Hh1, Hr1. cbn [bind fst snd]. rewrite Hig1, Hempty.
  cbn [dict_has bind negb dict_set].
  unfold inter_sam_line.
  rewrite Hh2. cbn [COUNT]. rewrite Hr2. cbn [bind fst snd place bestScore].
  rewrite Hig2, Hkey. cbn [dict_has]. rewrite key_eqb_refl.
  cbn [orb]. rewrite Hq1, Hq2. cbn [Py.lt bind].
  destruct (q1 <? q2).
  - eexists. split; [reflexivity |]. cbn [place bestScore replace_loop].
    rewrite key_eqb_refl. cbn [dict_set]. rewrite key_eqb_refl.
    rewrite Hl2. split; reflexivity.
  - cbn [negb orb]. eexists. split; [reflexivity |].
    cbn [place bestScore]. rewrite Hl1. split; reflexivity.
Qed.

Lemma first_pair_keeps_higher_score_witness :
  let sam := [Sample.q10; Sample.q30] in
  exists st',
    inter_sam_loop sam 6
      {| COUNT := 1; NR := 0; place := []; bestScore := Some 0 |}
      [Sample.q10; Sample.q30] = Ok st'
    /\ place st' = [(("AAAAAA", 100, "+"), Sample.q30)]
    /\ bestScore st' = Some 10.
Proof.
  intro sam.
  exact (first_pair_keeps_higher_score sam 6
           {| COUNT := 1; NR := 0; place := []; bestScore := Some 0 |}
           Sample.q10 Sample.q30
           {| self_line := Sample.q10; self_start_pos := 100;
              self_qual_score := Some 10;
              self_strand := ("+", Some EmptyString); self_BC := "AAAAAA" |}
           {| self_line := Sample.q30; self_start_pos := 100;
              self_qual_score := Some 30;
              self_strand := ("+", Some EmptyString); self_BC := "AAAAAA" |}
           2 3 10 30
           eq_refl eq_refl eq_refl eq_refl eq_refl eq_refl eq_refl eq_refl
           eq_refl eq_refl).
Defined.

(** ** Which exception a line raises *)

Lemma bind_raise {A B : Type} (m : result A) (k : A -> result B) (e : exn) :
  bind m k = Raise e -> m = Raise e \/ exists a, m = Ok a /\ k a = Raise e.
Proof.
  destruct m as [a | e']; simpl; intro H.
  - right. exists a. split; [reflexivity | exact H].
  - left. injection H as ->. reflexivity.
Qed.

Lemma item_raise {A : Type} (l : list A) (n : nat) (e : exn) :
  Py.item l n = Raise e -> e = IndexError.
Proof.
  unfold Py.item. destruct (nth_error l n); [discriminate |].
  intros [= <-]. reflexivity.
Qed.

Lemma char_at_raise (s : string) (n : nat) (e : exn) :
  Py.char_at s n = Raise e -> e = IndexError.
Proof.
  unfold Py.char_at. destruct (String.get n s); [discriminate |].
  intros [= <-]. reflexivity.
Qed.

Lemma int_raise (s : string) (e : exn) : Py.int s = Raise e -> e = ValueError.
Proof.
  unfold Py.int. destruct (Py.int_literal s); [discriminate |].
  intros [= <-]. reflexivity.
Qed.

Lemma soft_check_raise (align : string) (e : exn) :
  soft_check align = Raise e -> index_or_value e.
Proof.
  unfold soft_check, index_or_value. intro H.
  apply bind_raise in H. destruct H as [H | [c1 [_ H]]].
  - left. exact (char_at_raise _ _ _ H).
  - destruct (is_S c1).
    + apply bind_raise in H. destruct H as [H | [c0 [_ H]]].
      * left. exact (char_at_raise _ _ _ H).
      * right. exact (int_raise _ _ H).
    + apply bind_raise in H. destruct H as [H | [c2 [_ H]]].
      * left. exact (char_at_raise _ _ _ H).
      * destruct (is_S c2); [| discriminate H].
        right. exact (int_raise _ _ H).
Qed.

Lemma start_pos_raise (line : string) (e : exn) :
  start_pos line = Raise e -> index_or_value e.
Proof.
  unfold start_pos. intro H.
  apply bind_raise in H. destruct H as [H | [f3 [_ H]]];
    [left; exact (item_raise _ _ _ H) |].
  apply bind_raise in H. destruct H as [H | [p [_ H]]];
    [right; exact (int_raise _ _ H) |].
  apply bind_raise in H. destruct H as [H | [align [_ H]]];
    [left; exact (item_raise _ _ _ H) |].
  apply bind_raise in H. destruct H as [H | [soft [_ H]]];
    [exact (soft_check_raise _ _ H) | discriminate H].
Qed.

Lemma convert_phred_raise (line : string) (e : exn) :
  convert_phred line = Raise e -> index_or_value e.
Proof.
  unfold convert_phred. intro H.
  apply bind_raise in H. destruct H as [H | [qual [_ H]]];
    [left; exact (item_raise _ _ _ H) |].
  destruct qual; discriminate H.
Qed.

Lemma bit_check_raise (line : string) (e : exn) :
  bit_check line = Raise e -> index_or_value e.
Proof.
  unfold bit_check. intro H.
  apply bind_raise in H. destruct H as [H | [f1 [_ H]]];
    [left; exact (item_raise _ _ _ H) |].
  apply bind_raise in H. destruct H as [H | [flag [_ H]]];
    [right; exact (int_raise _ _ H) | discriminate H].
Qed.

(** What classification raises does not depend on the file or the counter,
    and is never [TypeError]. *)
Lemma sam_info_raise (sam : list string) (ID : Z) (c : nat) (line : string)
  (e : exn) :
  sam_info sam ID c line = Raise e ->
  index_or_value e
  /\ forall sam' ID' c', sam_info sam' ID' c' line = Raise e.
Proof.
  unfold sam_info.
  destruct (start_pos line) as [sp | e1] eqn:Hsp; cbn [bind].
  - destruct (convert_phred line) as [q | e2] eqn:Hq; cbn [bind].
    + destruct (bit_check line) as [st | e3] eqn:Hb; cbn [bind];
        [discriminate |].
      intros [= <-]. split; [exact (bit_check_raise _ _ Hb) | reflexivity].
    + intros [= <-]. split; [exact (convert_phred_raise _ _ Hq) | reflexivity].
  - intros [= <-]. split; [exact (start_pos_raise _ _ Hsp) | reflexivity].
Qed.

(** C5, as the code has it.  Nothing catches the exception a malformed line
    raises in [sam_info]: for a non-header line with fewer than 11 fields, or
    with a flag or position that is not an integer, there is one exception,
    [IndexError] or [ValueError], that the turn of the loop raises in every
    state; a run whose earlier lines pass raises it at that line, whatever
    follows, and the run over any stream that holds the line raises: no
    later line is processed and nothing is written out. *)
Theorem malformed_line_aborts_run (sam : list string) (ID : Z)
  (line : string) :
  Py.startswith_at line = false ->
  malformed line = true ->
  exists e,
    index_or_value e
    /\ (forall st, inter_sam_line sam ID st line = Raise e)
    /\ (forall pre post st1,
           inter_sam sam ID 1 0 [] pre = Ok st1 ->
           dedup sam ID (pre ++ line :: post) = Raise e)
    /\ (forall pre post, raises (dedup sam ID (pre ++ line :: post))).
Proof.
  intros Hhead Hbad.
  destruct (sam_info_malformed_raises sam ID 0 line Hbad) as [e He].
  destruct (sam_info_raise _ _ _ _ _ He) as [Hkind Hall].
  assert (Hline : forall st, inter_sam_line sam ID st line = Raise e).
  { intro st. unfold inter_sam_line. rewrite Hhead, (Hall sam ID (COUNT st)).
    reflexivity. }
  exists e. split; [exact Hkind |]. split; [exact Hline |]. split.
  - intros pre post st1 Hpre. unfold dedup, inter_sam in *.
    rewrite inter_sam_loop_app, Hpre. cbn [bind inter_sam_loop].
    rewrite Hline. reflexivity.
  - intros pre post. unfold dedup, inter_sam.
    apply bind_raises_left. apply inter_sam_loop_raises_at.
    intro st. exists e. apply Hline.
Qed.

Lemma malformed_line_aborts_run_witness :
  let sam := [Sample.q10; Sample.too_few; Sample.q50_other] in
  Py.startswith_at Sample.too_few = false
  /\ malformed Sample.too_few = true
  /\ exists e,
       index_or_value e
       /\ dedup sam 6 ([Sample.q10] ++ Sample.too_few :: [Sample.q50_other])
          = Raise e.
Proof.
  intro sam. split; [reflexivity |]. split; [reflexivity |].
  destruct (malformed_line_aborts_run sam 6 Sample.too_few eq_refl eq_refl)
    as [e [Hkind [_ [Hrun _]]]].
  exists e. split; [exact Hkind |].
  apply (Hrun [Sample.q10] [Sample.q50_other]
           {| COUNT := 2; NR := 1;
              place := [(("AAAAAA", 100, "+"), Sample.q10)];
              bestScore := Some 10 |}).
  vm_compute. reflexivity.
Defined.

(** ** A record without id *)

Lemma empty_id_turn (sam : list string) (ID : Z) (st : state) (raw : string)
  (r : sam_info_obj) (c : nat) :
  Py.startswith_at raw = false ->
  sam_info sam ID (COUNT st) raw = Ok (r, c) ->
  self_BC r = EmptyString ->
  inter_sam_line sam ID st raw
  = Ok {| COUNT := c; NR := NR st + 1; place := place st;
          bestScore := bestScore st |}.
Proof.
  intros Hhead Hr HBC. unfold inter_sam_line.
  rewrite Hhead, Hr. cbn [bind fst snd].
  assert (Hig : ignored r = true).
  { unfold ignored. rewrite HBC. destruct (snd (self_strand r)); reflexivity. }
  rewrite Hig. reflexivity.
Qed.

(** C8, as the code has it.  When the name has no run of class characters of
    at least the expected length, [barcode_get] returns the empty string
    itself.  [inter_sam] reads an empty [BC] as a record without id: the turn
    of the loop that classifies a record at that counter returns with the
    table and [bestScore] as they were, and so does the turn for any record
    whose id is the empty string. *)
Theorem barcode_get_without_run_is_empty_string (sam : list string) (ID : Z)
  (cnt : nat) (name : string) :
  Sh.sed_n_p cnt (Sh.names sam) = Some name ->
  has_run ID name = false ->
  barcode_get sam ID cnt = (EmptyString, S cnt)
  /\ (forall line r c,
         sam_info sam ID cnt line = Ok (r, c) ->
         self_BC r = EmptyString /\ ignored r = true)
  /\ (forall st raw r c,
         COUNT st = cnt ->
         Py.startswith_at raw = false ->
         sam_info sam ID cnt raw = Ok (r, c) ->
         inter_sam_line sam ID st raw
         = Ok {| COUNT := c; NR := NR st + 1; place := place st;
                 bestScore := bestScore st |})
  /\ (forall st raw r c,
         Py.startswith_at raw = false ->
         sam_info sam ID (COUNT st) raw = Ok (r, c) ->
         self_BC r = EmptyString ->
         inter_sam_line sam ID st raw
         = Ok {| COUNT := c; NR := NR st + 1; place := place st;
                 bestScore := bestScore st |}).
Proof.
  intros Hname Hno.
  assert (Hbc : barcode_get sam ID cnt = (EmptyString, S cnt)).
  { unfold barcode_get, Sh.check_output.
    rewrite Hname, (grep_o_no_run _ _ Hno). reflexivity. }
  assert (Hid : forall line r c,
             sam_info sam ID cnt line = Ok (r, c) -> self_BC r = EmptyString).
  { intros line r c Hr.
    destruct (sam_info_ok _ _ _ _ _ _ Hr) as [_ [_ [_ [_ [HBC _]]]]].
    rewrite Hbc in HBC. exact HBC. }
  split; [exact Hbc |]. split; [| split].
  - intros line r c Hr. pose proof (Hid line r c Hr) as HBC.
    split; [exact HBC |].
    unfold ignored. rewrite HBC.
    destruct (snd (self_strand r)); reflexivity.
  - intros st raw r c Hc Hhead Hr.
    apply (empty_id_turn sam ID st raw r c);
      [exact Hhead | rewrite Hc; exact Hr |].
    exact (Hid raw r c Hr).
  - intros st raw r c Hhead Hr HBC. exact (empty_id_turn _ _ _ _ _ _ Hhead Hr HBC).
Qed.

Lemma barcode_get_without_run_is_empty_string_witness :
  Sh.sed_n_p 1 (Sh.names [Sample.no_id]) = Some "read7:xyz:ACG"
  /\ has_run 6 "read7:xyz:ACG" = false
  /\ barcode_get [Sample.no_id] 6 1 = (EmptyString, 2%nat)
  /\ main [Sample.no_id] 6 = Ok [].
Proof.
  split; [reflexivity |]. split; [reflexivity |].
  split; [| vm_compute; reflexivity].
  apply (proj1 (barcode_get_without_run_is_empty_string
                  [Sample.no_id] 6 1 "read7:xyz:ACG" eq_refl eq_refl)).
Defined.

(** ** Which exception the soft-clip resolver raises *)

(** [soft_check] raises [IndexError] exactly on a descriptor of fewer than
    two characters and on one of two characters whose second is not S or s
    (such as ["5M"]).  It never raises [TypeError]: on every other descriptor
    it returns a number or raises [ValueError]. *)
Theorem soft_check_index_error_iff (align : string) :
  (soft_check align = Raise IndexError
   <-> (String.length align < 2)%nat
       \/ exists c0 c1,
            align = String c0 (String c1 EmptyString) /\ is_S c1 = false)
  /\ soft_check align <> Raise TypeError
  /\ ((exists v, soft_check align = Ok v)
      \/ soft_check align = Raise IndexError
      \/ soft_check align = Raise ValueError).
Proof.
  split; [| split].
  - destruct align as [| c0 [| c1 [| c2 rest]]].
    + split; [intros _; left; simpl; lia | reflexivity].
    + split; [intros _; left; simpl; lia | reflexivity].
    + unfold soft_check, Py.char_at. simpl String.get. cbn [bind].
      destruct (is_S c1) eqn:Hs; cbn [bind].
      * split.
        -- intro H. exfalso. exact (int_never_index_error _ H).
        -- intros [H | [d0 [d1 [Heq Hd]]]]; [simpl in H; lia |].
           injection Heq as _ <-. congruence.
      * split; [| reflexivity].
        intros _. right. exists c0, c1. split; [reflexivity | exact Hs].
    + unfold soft_check, Py.char_at. simpl String.get. cbn [bind].
      split.
      * intro H. exfalso.
        destruct (is_S c1); cbn [bind] in H;
          [exact (int_never_index_error _ H) |].
        destruct (is_S c2);
          [exact (int_never_index_error _ H) | discriminate H].
      * intros [H | [d0 [d1 [Heq _]]]]; [simpl in H; lia | discriminate Heq].
  - intro H. destruct (soft_check_raise _ _ H); discriminate.
  - destruct (soft_check align) as [v | e] eqn:H.
    + left. exists v. reflexivity.
    + right. destruct (soft_check_raise _ _ H) as [-> | ->]; auto.
Qed.

Lemma soft_check_index_error_iff_witness :
  soft_check "5M" = Raise IndexError
  /\ soft_check "MSx" = Raise ValueError.
Proof.
  split.
  - apply (proj2 (proj1 (soft_check_index_error_iff "5M"))).
    right. exists "5"%char, "M"%char. split; reflexivity.
  - destruct (proj2 (proj2 (soft_check_index_error_iff "MSx")))
      as [[v H] | [H | H]].
    + vm_compute in H. discriminate H.
    + vm_compute in H. discriminate H.
    + exact H.
Defined.

(** ** The matches of the pipeline are the long runs of the name *)

Lemma filter_andb {A : Type} (f g : A -> bool) (l : list A) :
  filter (fun x => f x && g x) l = filter g (filter f l).
Proof.
  induction l as [| a l IH]; simpl; [reflexivity |].
  destruct (f a); simpl; [| exact IH].
  destruct (g a); rewrite IH; reflexivity.
Qed.

Lemma filter_one {A : Type} (f : A -> bool) (a : A) :
  f a = true -> filter f [a] = [a].
Proof.
  intro H. simpl. rewrite H. reflexivity.
Qed.

Lemma runs_from_false (s : string) :
  runs_from false s
  = (filter (fun r => 1 <=? Z.of_nat (String.length r)) [class_prefix s]
       ++ runs_from true s)%list.
Proof.
  destruct s as [| c s']; [reflexivity |].
  simpl runs_from. simpl class_prefix.
  destruct (Sh.in_class c); [| reflexivity].
  assert (H : (1 <=? Z.of_nat (String.length (String c (class_prefix s'))))
              = true)
    by (apply Z.leb_le; simpl String.length; lia).
  rewrite (filter_one (fun r => 1 <=? Z.of_nat (String.length r))
             (String c (class_prefix s')) H).
  reflexivity.
Qed.

Lemma pieces_runs (s : string) :
  exists rs,
    Sh.pieces s = class_prefix s :: rs
    /\ filter (fun r => 1 <=? Z.of_nat (String.length r)) rs
       = runs_from true s.
Proof.
  induction s as [| c s IH].
  - exists []. split; reflexivity.
  - destruct IH as [rs [Hp Hrs]].
    simpl Sh.pieces. simpl class_prefix. simpl runs_from. rewrite Hp.
    destruct (Sh.in_class c).
    + exists rs. split; [reflexivity | exact Hrs].
    + exists (class_prefix s :: rs). split; [reflexivity |].
      rewrite runs_from_false, <- Hrs.
      change (class_prefix s :: rs) with ([class_prefix s] ++ rs)%list.
      rewrite filter_app. reflexivity.
Qed.

Lemma pieces_maximal_runs (s : string) :
  filter (fun r => 1 <=? Z.of_nat (String.length r)) (Sh.pieces s)
  = maximal_runs s.
Proof.
  destruct (pieces_runs s) as [rs [Hp Hrs]].
  unfold maximal_runs. rewrite Hp, runs_from_false, <- Hrs.
  change (class_prefix s :: rs) with ([class_prefix s] ++ rs)%list.
  rewrite filter_app. reflexivity.
Qed.

Lemma grep_o_long_runs (ID : Z) (name : string) :
  0 <= ID <= 32767 ->
  Sh.grep_o ID name = long_runs ID name.
Proof.
  intro HID. unfold Sh.grep_o, long_runs.
  assert (Hrange : (ID <? 0) || (32767 <? ID) = false).
  { apply orb_false_iff. split; apply Z.ltb_ge; lia. }
  rewrite Hrange. unfold Sh.long_enough.
  rewrite (filter_andb (fun r => 1 <=? Z.of_nat (String.length r))
                       (fun r => ID <=? Z.of_nat (String.length r))).
  rewrite pieces_maximal_runs. reflexivity.
Qed.

Lemma prefixes_length (s x : string) :
  In x (prefixes s) -> (String.length x <= String.length s)%nat.
Proof.
  revert x. induction s as [| c s IH]; intros x Hx.
  - simpl in Hx. destruct Hx as [<- | []]. simpl. lia.
  - simpl in Hx. destruct Hx as [<- | Hx]; [simpl; lia |].
    apply in_map_iff in Hx. destruct Hx as [x' [<- Hx']].
    simpl. specialize (IH x' Hx'). lia.
Qed.

Lemma substrings_length (s x : string) :
  In x (substrings s) -> (String.length x <= String.length s)%nat.
Proof.
  revert x. induction s as [| c s IH]; intros x Hx;
    rewrite substrings_unfold in Hx; apply in_app_or in Hx;
    destruct Hx as [Hx | Hx].
  - exact (prefixes_length _ _ Hx).
  - contradiction.
  - exact (prefixes_length _ _ Hx).
  - specialize (IH x Hx). simpl. lia.
Qed.

Lemma class_prefix_holds_prefix (s x : string) :
  In x (prefixes s) ->
  all_in_class x = true ->
  In x (prefixes (class_prefix s)).
Proof.
  revert x. induction s as [| c s IH]; intros x Hx Hall.
  - exact Hx.
  - simpl in Hx. destruct Hx as [<- | Hx].
    + destruct (class_prefix (String c s)); simpl; left; reflexivity.
    + apply in_map_iff in Hx. destruct Hx as [x' [<- Hx']].
      unfold all_in_class in Hall. simpl in Hall.
      apply andb_true_iff in Hall. destruct Hall as [Hc Hall'].
      simpl class_prefix. rewrite Hc. simpl. right.
      apply in_map. exact (IH x' Hx' Hall').
Qed.

(** A run of class characters of the name lies inside one piece. *)
Lemma run_inside_some_piece (s x : string) :
  In x (substrings s) ->
  all_in_class x = true ->
  exists r, In r (Sh.pieces s) /\ In x (substrings r).
Proof.
  revert x. induction s as [| c s IH]; intros x Hx Hall.
  - exists EmptyString. split; [left; reflexivity | exact Hx].
  - destruct (pieces_runs (String c s)) as [rs [Hp _]].
    rewrite substrings_unfold in Hx. apply in_app_or in Hx.
    destruct Hx as [Hx | Hx].
    + exists (class_prefix (String c s)). split.
      * rewrite Hp. left. reflexivity.
      * apply prefixes_in_substrings.
        exact (class_prefix_holds_prefix _ _ Hx Hall).
    + destruct (IH x Hx Hall) as [r [Hr Hin]].
      destruct (pieces_runs s) as [rs' [Hp' _]].
      simpl Sh.pieces. rewrite Hp' in Hr |- *.
      destruct (Sh.in_class c).
      * destruct Hr as [<- | Hr].
        -- exists (String c (class_prefix s)).
           split; [left; reflexivity | apply substrings_tail; exact Hin].
        -- exists r. split; [right; exact Hr | exact Hin].
      * exists r. split; [right; exact Hr | exact Hin].
Qed.

(** Every run of at least [ID] class characters (and at least one) that
    occurs in the name lies inside one of its long runs. *)
Lemma long_runs_complete (ID : Z) (name x : string) :
  In x (substrings name) ->
  all_in_class x = true ->
  1 <= Z.of_nat (String.length x) ->
  ID <= Z.of_nat (String.length x) ->
  exists m, In m (long_runs ID name) /\ In x (substrings m).
Proof.
  intros Hx Hall H1 HID.
  destruct (run_inside_some_piece _ _ Hx Hall) as [r [Hr Hin]].
  exists r. split; [| exact Hin].
  pose proof (substrings_length _ _ Hin) as Hlen.
  unfold long_runs. rewrite <- pieces_maximal_runs.
  apply filter_In. split.
  - apply filter_In. split; [exact Hr | apply Z.leb_le; lia].
  - apply Z.leb_le. lia.
Qed.

(** Each long run is a run of class characters of the name, long enough. *)
Lemma long_runs_sound (ID : Z) (name m : string) :
  In m (long_runs ID name) ->
  In m (substrings name)
  /\ all_in_class m = true
  /\ ID <= Z.of_nat (String.length m)
  /\ 1 <= Z.of_nat (String.length m).
Proof.
  unfold long_runs. rewrite <- pieces_maximal_runs.
  intro H. apply filter_In in H. destruct H as [H HID].
  apply filter_In in H. destruct H as [Hr H1].
  destruct (pieces_are_runs _ _ Hr) as [Hsub Hall].
  apply Z.leb_le in HID, H1. auto.
Qed.

(** ** Text files: what the two readers and the pipeline see *)

Lemma plain_char_facts (c : ascii) :
  plain_char c = true ->
  Ascii.eqb c Py.nl = false /\ Ascii.eqb c File.cr = false.
Proof.
  intro H. split.
  - destruct (Ascii.eqb c Py.nl) eqn:E; [| reflexivity].
    apply Ascii.eqb_eq in E. subst c. vm_compute in H. discriminate H.
  - destruct (Ascii.eqb c File.cr) eqn:E; [| reflexivity].
    apply Ascii.eqb_eq in E. subst c. vm_compute in H. discriminate H.
Qed.

Lemma chomp_cons (c : ascii) (rest : string) :
  rest <> EmptyString -> Sh.chomp (String c rest) = String c (Sh.chomp rest).
Proof.
  destruct rest; [contradiction | reflexivity].
Qed.

Lemma ends_nl_cons (c : ascii) (rest : string) :
  rest <> EmptyString -> ends_nl (String c rest) = ends_nl rest.
Proof.
  destruct rest; [contradiction | reflexivity].
Qed.

Lemma split_tab_cons_hd (c : ascii) (s : string) :
  Ascii.eqb c Py.tab = false ->
  hd EmptyString (Py.split_tab (String c s))
  = String c (hd EmptyString (Py.split_tab s)).
Proof.
  intro H. simpl. rewrite H. destruct (Py.split_tab s); reflexivity.
Qed.

(** On a line without a line feed before its end, [cut -f 1] prints the
    read name. *)
Lemma cut_f1_name_field (l : string) :
  forallb plain_char (list_ascii_of_string (Sh.chomp l)) = true ->
  Sh.cut_f1 l = name_field l.
Proof.
  unfold Sh.cut_f1.
  induction l as [| c rest IH]; [reflexivity |].
  destruct rest as [| c' r'].
  - simpl Sh.chomp. simpl name_field.
    destruct (Ascii.eqb c Py.nl) eqn:Hnl.
    + intros _. rewrite orb_true_r. reflexivity.
    + intros _. rewrite orb_false_r. simpl.
      destruct (Ascii.eqb c Py.tab); reflexivity.
  - rewrite chomp_cons by discriminate.
    intro H. simpl in H. apply andb_true_iff in H. destruct H as [Hc Hrest].
    destruct (plain_char_facts c Hc) as [Hnl _].
    change (name_field (String c (String c' r')))
      with (if Ascii.eqb c Py.tab || Ascii.eqb c Py.nl then EmptyString
            else String c (name_field (String c' r'))).
    rewrite Hnl, orb_false_r.
    destruct (Ascii.eqb c Py.tab) eqn:Htab.
    + simpl. rewrite Htab. reflexivity.
    + rewrite (split_tab_cons_hd _ _ Htab), (IH Hrest). reflexivity.
Qed.

Lemma names_records (sam : list string) :
  Sh.names sam = map Sh.cut_f1 (records sam).
Proof.
  unfold Sh.names, Sh.grep_v_at, records.
  induction sam as [| l rest IH]; [reflexivity |].
  simpl. rewrite startswith_at_cut_f1.
  destruct (Py.startswith_at l); simpl; rewrite IH; reflexivity.
Qed.

Lemma text_file_plain (sam : list string) (l : string) :
  text_file sam = true -> In l sam -> plain_line l = true.
Proof.
  induction sam as [| a rest IH]; [contradiction |].
  simpl text_file. intros H Hin.
  apply andb_true_iff in H. destruct H as [H Hrest].
  apply andb_true_iff in H. destruct H as [Ha _].
  destruct Hin as [<- | Hin]; [exact Ha | exact (IH Hrest Hin)].
Qed.

(** In a text file the pipeline selects, at counter [n + 1], the read name of
    the record with that ordinal, and nothing when there is none. *)
Lemma selected_name (sam : list string) (n : nat) :
  text_file sam = true ->
  Sh.sed_n_p (S n) (Sh.names sam)
  = option_map name_field (nth_error (records sam) n).
Proof.
  intro Htext. simpl Sh.sed_n_p. rewrite names_records.
  rewrite (map_ext_in Sh.cut_f1 name_field).
  - apply nth_error_map.
  - intros l Hl. apply cut_f1_name_field.
    assert (Hin : In l sam).
    { unfold records in Hl. apply filter_In in Hl. tauto. }
    pose proof (text_file_plain sam l Htext Hin) as Hp.
    unfold plain_line in Hp. apply andb_true_iff in Hp. tauto.
Qed.

(** In a text file, for a bound from 0 to 32767, the id returned at counter
    [n + 1] is the id of the record with that ordinal. *)
Lemma barcode_get_text (sam : list string) (ID : Z) (n : nat) :
  text_file sam = true ->
  0 <= ID <= 32767 ->
  barcode_get sam ID (S n) = (id_at sam ID n, S (S n)).
Proof.
  intros Htext HID. unfold id_at.
  pose proof (selected_name sam n Htext) as Hsel.
  destruct (nth_error (records sam) n) as [l |]; simpl option_map in Hsel.
  - rewrite (barcode_get_value sam ID (S n) _ Hsel).
    rewrite (grep_o_long_runs ID _ HID). reflexivity.
  - unfold barcode_get, Sh.check_output. rewrite Hsel. reflexivity.
Qed.

Lemma py_lines_plain (text : string) :
  plain_text text = true -> File.py_lines text = File.sh_lines text.
Proof.
  unfold plain_text.
  induction text as [| c rest IH]; [reflexivity |].
  simpl. intro H. apply andb_true_iff in H. destruct H as [Hc Hrest].
  destruct (Ascii.eqb c Py.nl) eqn:Hnl.
  - rewrite (IH Hrest). reflexivity.
  - rewrite orb_false_r in Hc.
    destruct (plain_char_facts c Hc) as [_ Hcr]. rewrite Hcr.
    rewrite (IH Hrest). reflexivity.
Qed.

Lemma sh_lines_text_file (text : string) :
  plain_text text = true -> text_file (File.sh_lines text) = true.
Proof.
  unfold plain_text.
  induction text as [| c rest IH]; [reflexivity |].
  simpl. intro H. apply andb_true_iff in H. destruct H as [Hc Hrest].
  specialize (IH Hrest).
  destruct (Ascii.eqb c Py.nl) eqn:Hnl.
  - apply Ascii.eqb_eq in Hnl. subst c.
    change (text_file (String Py.nl EmptyString :: File.sh_lines rest))
      with (plain_line (String Py.nl EmptyString)
            && match File.sh_lines rest with
               | [] => true
               | _ :: _ => ends_nl (String Py.nl EmptyString)
               end
            && text_file (File.sh_lines rest)).
    rewrite IH. destruct (File.sh_lines rest); reflexivity.
  - rewrite orb_false_r in Hc.
    destruct (File.sh_lines rest) as [| l ls] eqn:Hl.
    + unfold text_file, plain_line. simpl Sh.chomp. rewrite Hnl.
      simpl. rewrite Hc. reflexivity.
    + simpl text_file in IH.
      apply andb_true_iff in IH. destruct IH as [IH Hls].
      apply andb_true_iff in IH. destruct IH as [Hpl Hend].
      assert (Hne : l <> EmptyString).
      { intro E. subst l. discriminate Hpl. }
      unfold plain_line in Hpl. apply andb_true_iff in Hpl.
      destruct Hpl as [_ Hbody].
      change (text_file (String c l :: ls))
        with (plain_line (String c l)
              && match ls with
                 | [] => true
                 | _ :: _ => ends_nl (String c l)
                 end
              && text_file ls).
      rewrite Hls, (ends_nl_cons c l Hne), Hend.
      unfold plain_line. rewrite (chomp_cons c l Hne). simpl.
      rewrite Hc, Hbody. reflexivity.
Qed.

Lemma sh_lines_line (l t : string) :
  forallb plain_char (list_ascii_of_string (Sh.chomp l)) = true ->
  l <> EmptyString ->
  File.sh_lines l = [l]
  /\ (ends_nl l = true -> File.sh_lines (l ++ t) = l :: File.sh_lines t).
Proof.
  induction l as [| c rest IH]; [contradiction |].
  intros Hbody _. destruct rest as [| c' r'].
  - simpl ends_nl. simpl. destruct (Ascii.eqb c Py.nl) eqn:Hnl.
    + apply Ascii.eqb_eq in Hnl. subst c. split; [reflexivity | reflexivity].
    + split; [reflexivity | discriminate].
  - rewrite chomp_cons in Hbody by discriminate.
    simpl in Hbody. apply andb_true_iff in Hbody. destruct Hbody as [Hc Hrest].
    destruct (plain_char_facts c Hc) as [Hnl _].
    assert (Hne : String c' r' <> EmptyString) by discriminate.
    destruct (IH Hrest Hne) as [Hone Hmore].
    rewrite (ends_nl_cons c _ Hne). split.
    + change (File.sh_lines (String c (String c' r')))
        with (if Ascii.eqb c Py.nl
              then String Py.nl EmptyString :: File.sh_lines (String c' r')
              else match File.sh_lines (String c' r') with
                   | l :: ls => String c l :: ls
                   | [] => [String c EmptyString]
                   end).
      rewrite Hnl, Hone. reflexivity.
    + intro Hend.
      change (File.sh_lines (String c (String c' r') ++ t))
        with (if Ascii.eqb c Py.nl
              then String Py.nl EmptyString
                   :: File.sh_lines (String c' r' ++ t)
              else match File.sh_lines (String c' r' ++ t) with
                   | l :: ls => String c l :: ls
                   | [] => [String c EmptyString]
                   end).
      rewrite Hnl, (Hmore Hend). reflexivity.
Qed.

Lemma text_file_head (l : string) (rest : list string) :
  text_file (l :: rest) = true ->
  forallb plain_char (list_ascii_of_string (Sh.chomp l)) = true
  /\ l <> EmptyString
  /\ (rest <> [] -> ends_nl l = true)
  /\ text_file rest = true.
Proof.
  simpl text_file. intro H.
  apply andb_true_iff in H. destruct H as [H Hrest].
  apply andb_true_iff in H. destruct H as [Hpl Hend].
  unfold plain_line in Hpl. apply andb_true_iff in Hpl.
  destruct Hpl as [Hne Hbody].
  repeat split; try assumption.
  - intro E. subst l. discriminate Hne.
  - intro Hr. destruct rest; [contradiction | exact Hend].
Qed.

(** The tools see a text file as its lines. *)
Lemma sh_lines_concat (sam : list string) :
  text_file sam = true ->
  File.sh_lines (String.concat EmptyString sam) = sam.
Proof.
  induction sam as [| l rest IH]; [reflexivity |].
  intro H. destruct (text_file_head l rest H) as [Hbody [Hne [Hend Hrest]]].
  destruct rest as [| l' rest'].
  - simpl String.concat. exact (proj1 (sh_lines_line l EmptyString Hbody Hne)).
  - change (String.concat EmptyString (l :: l' :: rest'))
      with (l ++ String.concat EmptyString (l' :: rest'))%string.
    rewrite (proj2 (sh_lines_line l _ Hbody Hne)) by (apply Hend; discriminate).
    rewrite (IH Hrest). reflexivity.
Qed.

Lemma line_is_plain_text (l : string) :
  forallb plain_char (list_ascii_of_string (Sh.chomp l)) = true ->
  plain_text l = true.
Proof.
  unfold plain_text.
  induction l as [| c rest IH]; [reflexivity |].
  destruct rest as [| c' r'].
  - simpl. destruct (Ascii.eqb c Py.nl) eqn:Hnl.
    + intros _. rewrite orb_true_r. reflexivity.
    + simpl. intro H. rewrite andb_true_r in H. rewrite H. reflexivity.
  - rewrite chomp_cons by discriminate.
    intro H. simpl in H. apply andb_true_iff in H. destruct H as [Hc Hrest].
    change (list_ascii_of_string (String c (String c' r')))
      with (c :: list_ascii_of_string (String c' r')).
    simpl forallb at 1. rewrite Hc. simpl orb. cbv iota. simpl andb.
    exact (IH Hrest).
Qed.

Lemma plain_text_app (a b : string) :
  plain_text a = true -> plain_text b = true -> plain_text (a ++ b) = true.
Proof.
  unfold plain_text. intros Ha Hb.
  rewrite list_ascii_app, forallb_app, Ha, Hb. reflexivity.
Qed.

Lemma text_file_plain_text (sam : list string) :
  text_file sam = true -> plain_text (String.concat EmptyString sam) = true.
Proof.
  induction sam as [| l rest IH]; [reflexivity |].
  intro H. destruct (text_file_head l rest H) as [Hbody [_ [_ Hrest]]].
  destruct rest as [| l' rest'].
  - simpl String.concat. exact (line_is_plain_text l Hbody).
  - change (String.concat EmptyString (l :: l' :: rest'))
      with (l ++ String.concat EmptyString (l' :: rest'))%string.
    apply plain_text_app; [exact (line_is_plain_text l Hbody) | exact (IH Hrest)].
Qed.

(** On a text file the loop and the pipeline read the same lines: the run on
    the characters of the file is the run on its lines. *)
Lemma main_text_on_text_file (sam : list string) (ID : Z) :
  text_file sam = true ->
  main_text (String.concat EmptyString sam) ID = main sam ID.
Proof.
  intro H. unfold main_text, main.
  rewrite (py_lines_plain _ (text_file_plain_text sam H)).
  rewrite (sh_lines_concat sam H). reflexivity.
Qed.

(** ** The long runs lie in the name one after the other *)

Lemma weave_prepend (a : string) (gm : list (string * string))
  (last : string) :
  exists gm' last',
    (a ++ weave gm last)%string = weave gm' last'
    /\ map snd gm' = map snd gm.
Proof.
  destruct gm as [| [g m] rest].
  - exists [], (a ++ last)%string. split; reflexivity.
  - exists (((a ++ g)%string, m) :: rest), last. split; [| reflexivity].
    simpl. rewrite string_app_assoc. reflexivity.
Qed.

Lemma weave_filter (f : string -> bool) (gm : list (string * string))
  (last : string) :
  exists gm' last',
    weave gm last = weave gm' last'
    /\ map snd gm' = filter f (map snd gm).
Proof.
  induction gm as [| [g m] rest IH].
  - exists [], last. split; reflexivity.
  - destruct IH as [gm1 [last1 [Heq Hmap]]]. simpl weave. simpl map.
    simpl filter. rewrite Heq. destruct (f m).
    + exists ((g, m) :: gm1), last1. split; [reflexivity |].
      simpl. rewrite Hmap. reflexivity.
    + destruct (weave_prepend (g ++ m)%string gm1 last1)
        as [gm2 [last2 [Heq2 Hmap2]]].
      exists gm2, last2. split.
      * rewrite <- Heq2. rewrite string_app_assoc. reflexivity.
      * rewrite Hmap2. exact Hmap.
Qed.

Lemma runs_from_weave (s : string) :
  (exists gm last,
      s = weave gm last /\ map snd gm = runs_from false s)
  /\ (exists gm last,
         s = (class_prefix s ++ weave gm last)%string
         /\ map snd gm = runs_from true s).
Proof.
  induction s as [| c s IH].
  - split; exists [], EmptyString; split; reflexivity.
  - destruct IH as [[gmF [lastF [HF HmF]]] [gmT [lastT [HT HmT]]]].
    simpl runs_from. simpl class_prefix.
    destruct (Sh.in_class c); simpl negb; cbv iota; simpl andb; cbv iota.
    + split.
      * exists ((EmptyString, String c (class_prefix s)) :: gmT), lastT.
        split; [| simpl; rewrite HmT; reflexivity].
        simpl. rewrite <- HT. reflexivity.
      * exists gmT, lastT. split; [| exact HmT].
        simpl. rewrite <- HT. reflexivity.
    + destruct (weave_prepend (String c EmptyString) gmF lastF)
        as [gm' [last' [Heq Hmap]]].
      simpl in Heq. rewrite <- HF in Heq.
      split; exists gm', last'; split;
        try exact Heq; rewrite Hmap; exact HmF.
Qed.

(** The name reads gap, run, gap, run, ..., with the long runs as the runs,
    in their order. *)
Lemma long_runs_in_order (ID : Z) (name : string) :
  exists gm last,
    name = weave gm last /\ map snd gm = long_runs ID name.
Proof.
  destruct (proj1 (runs_from_weave name)) as [gm [last [Heq Hmap]]].
  destruct (weave_filter (fun r => ID <=? Z.of_nat (String.length r)) gm last)
    as [gm' [last' [Heq' Hmap']]].
  exists gm', last'. split.
  - rewrite <- Heq'. exact Heq.
  - unfold long_runs, maximal_runs. rewrite <- Hmap. exact Hmap'.
Qed.

(** ** Classifying a line again, in a text file *)

(** C4, as the code has it.  For a text file and a bound from 0 to 32767.
    A line classified at counter [n + 1] gets the id found in the read name
    of the file's record with ordinal [n + 1], not in its own name, and the
    counter moves to [n + 2].  Classified again at any counter [m + 1] (on
    the spot: [m = n + 1]) the line gets the same adjusted start, quality
    score, strand and mapping validity, and the id of the record with
    ordinal [m + 1]; a line that raises raises the same exception at every
    counter. *)
Theorem reclassification_agrees_except_molecule_id (sam : list string)
  (ID : Z) (n : nat) (line : string) :
  text_file sam = true ->
  0 <= ID <= 32767 ->
  match sam_info sam ID (S n) line with
  | Ok (r1, c1) =>
      c1 = S (S n)
      /\ self_BC r1 = id_at sam ID n
      /\ forall m,
           exists r2,
             sam_info sam ID (S m) line = Ok (r2, S (S m))
             /\ self_start_pos r2 = self_start_pos r1
             /\ self_qual_score r2 = self_qual_score r1
             /\ self_strand r2 = self_strand r1
             /\ self_BC r2 = id_at sam ID m
  | Raise e => forall m, sam_info sam ID m line = Raise e
  end.
Proof.
  intros Htext HID. unfold sam_info.
  destruct (start_pos line); cbn [bind]; [| reflexivity].
  destruct (convert_phred line); cbn [bind]; [| reflexivity].
  destruct (bit_check line); cbn [bind]; [| reflexivity].
  rewrite (barcode_get_text sam ID n Htext HID).
  cbn [fst snd self_BC]. split; [reflexivity |]. split; [reflexivity |].
  intro m. rewrite (barcode_get_text sam ID m Htext HID).
  eexists. split; [reflexivity |]. cbn. auto.
Qed.

Lemma reclassification_agrees_except_molecule_id_witness :
  let sam := [Sample.q10; Sample.q50_other] in
  text_file sam = true
  /\ id_at sam 6 0 = "AAAAAA"
  /\ id_at sam 6 1 = "CCCCCC"
  /\ exists r1 r2,
       sam_info sam 6 1 Sample.q10 = Ok (r1, 2%nat)
       /\ sam_info sam 6 2 Sample.q10 = Ok (r2, 3%nat)
       /\ self_BC r1 = id_at sam 6 0
       /\ self_BC r2 = id_at sam 6 1
       /\ self_start_pos r2 = self_start_pos r1.
Proof.
  intro sam.
  assert (Htext : text_file sam = true) by reflexivity.
  assert (HID : 0 <= 6 <= 32767) by lia.
  split; [exact Htext |]. split; [reflexivity |]. split; [reflexivity |].
  pose proof (reclassification_agrees_except_molecule_id
                sam 6 0 Sample.q10 Htext HID) as H.
  destruct (sam_info sam 6 1 Sample.q10) as [[r1 c1] | e] eqn:E1.
  - destruct H as [Hc [Hid Hlater]].
    destruct (Hlater 1%nat) as [r2 [E2 [Hs [_ [_ Hid2]]]]].
    exists r1, r2. subst c1. auto 6.
  - vm_compute in E1. discriminate E1.
Defined.

(** ** Which record an id comes from *)

Lemma records_app (pre post : list string) :
  records (pre ++ post) = (records pre ++ records post)%list.
Proof.
  unfold records. apply filter_app.
Qed.

(** For a text file named on the command line and a bound from 0 to 32767.
    After the lines [pre] the counter is one more than the number of records
    among them, and the record met next gets the id found in the read name
    of the record with that ordinal in the file named on the command line,
    whatever file is iterated.  When the loop iterates the characters of that
    same file, this is the id found in the read name of the line being
    classified. *)
Theorem record_id_is_read_at_its_ordinal (sam : list string) (ID : Z)
  (pre : list string) (st : state) :
  text_file sam = true ->
  0 <= ID <= 32767 ->
  inter_sam sam ID 1 0 [] pre = Ok st ->
  COUNT st = S (List.length (records pre))
  /\ (forall raw r c,
         sam_info sam ID (COUNT st) raw = Ok (r, c) ->
         self_BC r = id_at sam ID (List.length (records pre)))
  /\ (forall text raw post,
         plain_text text = true ->
         sam = File.sh_lines text ->
         File.py_lines text = (pre ++ raw :: post)%list ->
         Py.startswith_at raw = false ->
         id_at sam ID (List.length (records pre))
         = id_in ID (name_field raw)).
Proof.
  intros Htext HID H.
  assert (Hc : COUNT st = S (List.length (records pre))).
  { unfold inter_sam in H. rewrite (inter_sam_loop_count _ _ _ _ _ H).
    reflexivity. }
  split; [exact Hc |]. split.
  - intros raw r c Hr. rewrite Hc in Hr.
    destruct (sam_info_ok _ _ _ _ _ _ Hr) as [_ [_ [_ [_ [HBC _]]]]].
    rewrite (barcode_get_text sam ID _ Htext HID) in HBC. exact HBC.
  - intros text raw post Hplain Hsam Hpy Hhead.
    rewrite (py_lines_plain text Hplain), <- Hsam in Hpy.
    unfold id_at. rewrite Hpy, records_app.
    rewrite nth_error_app2 by lia. rewrite Nat.sub_diag.
    unfold records at 1. simpl filter. rewrite Hhead. reflexivity.
Qed.

Lemma record_id_is_read_at_its_ordinal_witness :
  let sam := [Sample.q10; Sample.q50_other] in
  id_at sam 6 1 = "CCCCCC"
  /\ match inter_sam sam 6 1 0 [] [Sample.q30] with
     | Ok st =>
         COUNT st = 2%nat
         /\ forall raw r c,
              sam_info sam 6 (COUNT st) raw = Ok (r, c) ->
              self_BC r = id_at sam 6 1
     | Raise _ => False
     end.
Proof.
  intro sam. split; [reflexivity |].
  assert (HID : 0 <= 6 <= 32767) by lia.
  destruct (inter_sam sam 6 1 0 [] [Sample.q30]) as [st | e] eqn:H.
  - destruct (record_id_is_read_at_its_ordinal sam 6 [Sample.q30] st
                eq_refl HID H) as [Hc [Hid _]].
    split; [exact Hc | exact Hid].
  - vm_compute in H. discriminate H.
Defined.

(** ** The id of a record of a text file *)

(** For a text file and a bound from 0 to 32767, the id returned at the
    counter of a record is the long runs of its read name, one per line.
    Each of them is a run of at least [ID] class characters (and at least
    one) that occurs in the name; every such run of the name lies inside one
    of them; and the name reads gap, run, gap, run, ... with exactly those
    runs, in that order. *)
Theorem barcode_get_joins_all_matches (sam : list string) (ID : Z)
  (n : nat) (l : string) :
  text_file sam = true ->
  0 <= ID <= 32767 ->
  nth_error (records sam) n = Some l ->
  barcode_get sam ID (S n)
  = (String.concat (String Py.nl EmptyString) (long_runs ID (name_field l)),
     S (S n))
  /\ (forall m, In m (long_runs ID (name_field l)) ->
        In m (substrings (name_field l))
        /\ all_in_class m = true
        /\ ID <= Z.of_nat (String.length m)
        /\ 1 <= Z.of_nat (String.length m))
  /\ (forall x, In x (substrings (name_field l)) ->
        all_in_class x = true ->
        1 <= Z.of_nat (String.length x) ->
        ID <= Z.of_nat (String.length x) ->
        exists m, In m (long_runs ID (name_field l)) /\ In x (substrings m))
  /\ (exists gm last,
         name_field l = weave gm last
         /\ map snd gm = long_runs ID (name_field l)).
Proof.
  intros Htext HID Hl. split; [| split; [| split]].
  - rewrite (barcode_get_text sam ID n Htext HID).
    unfold id_at. rewrite Hl. reflexivity.
  - intros m Hm. exact (long_runs_sound ID _ m Hm).
  - intros x Hx Hall H1 Hlen. exact (long_runs_complete ID _ x Hx Hall H1 Hlen).
  - exact (long_runs_in_order ID (name_field l)).
Qed.

Lemma barcode_get_joins_all_matches_witness :
  let line := Sample.sam_line "AACTTG:HWI-ST354R:351:AAGCTC" "0" "100" "10M"
                "IIIIIIIIII" in
  name_field line = "AACTTG:HWI-ST354R:351:AAGCTC"
  /\ long_runs 6 (name_field line) = ["AACTTG"; "AAGCTC"]
  /\ barcode_get [line] 6 1
     = (String.concat (String Py.nl EmptyString)
          (long_runs 6 (name_field line)), 2%nat).
Proof.
  intro line. split; [reflexivity |]. split; [reflexivity |].
  assert (HID : 0 <= 6 <= 32767) by lia.
  exact (proj1 (barcode_get_joins_all_matches [line] 6 0 line
                  eq_refl HID eq_refl)).
Defined.

(** For a text file and a bound from 1 to 32767, the id returned at the
    counter of a record is the empty string exactly when its read name has
    no run of that many class characters. *)
Theorem barcode_empty_iff_no_run (sam : list string) (ID : Z) (n : nat)
  (l : string) :
  text_file sam = true ->
  1 <= ID <= 32767 ->
  nth_error (records sam) n = Some l ->
  fst (barcode_get sam ID (S n)) = EmptyString
  <-> has_run ID (name_field l) = false.
Proof.
  intros Htext HID Hl.
  pose proof (selected_name sam n Htext) as Hname.
  rewrite Hl in Hname. simpl option_map in Hname.
  rewrite (barcode_get_value sam ID (S n) _ Hname).
  simpl fst. split.
  - intro Hempty.
    destruct (has_run ID (name_field l)) eqn:Hrun; [| reflexivity].
    exfalso.
    destruct (grep_o_finds_run ID _ HID Hrun) as [m [ms Hg]].
    assert (Hall : forall x, In x (m :: ms) ->
                     all_in_class x = true
                     /\ 1 <= Z.of_nat (String.length x)).
    { intros x Hx. rewrite <- Hg in Hx.
      destruct (grep_o_matches _ _ _ Hx) as [_ [H1 [_ H2]]]. auto. }
    destruct (joined_matches ms m Hall) as [_ [[c [t [Hc _]]] _]].
    rewrite Hg in Hempty. rewrite Hempty in Hc. discriminate Hc.
  - intro Hno. rewrite (grep_o_no_run _ _ Hno). reflexivity.
Qed.

Lemma barcode_empty_iff_no_run_witness :
  name_field Sample.no_id = "read7:xyz:ACG"
  /\ fst (barcode_get [Sample.no_id] 6 1) = EmptyString
  /\ has_run 6 (name_field Sample.q10) = true
  /\ fst (barcode_get [Sample.q10] 6 1) <> EmptyString.
Proof.
  assert (HID : 1 <= 6 <= 32767) by lia.
  split; [reflexivity |]. split; [| split].
  - apply (proj2 (barcode_empty_iff_no_run [Sample.no_id] 6 0 Sample.no_id
                    eq_refl HID eq_refl)).
    reflexivity.
  - reflexivity.
  - intro H.
    apply (proj1 (barcode_empty_iff_no_run [Sample.q10] 6 0 Sample.q10
                    eq_refl HID eq_refl)) in H.
    discriminate H.
Defined.
